(** * BitcoinLib: the Bitaps provider client and the ledger schema

    A shallow embedding of [bitcoinlib/services/bitaps.py] (class
    [BitapsClient]) and of the table declarations of [bitcoinlib/db.py],
    with the properties of the incremental fetch, of the transaction
    parser and of the schema's CHECK constraints.

    Provider payloads are parsed JSON, so they are modelled as a small
    JSON value type on which the Python operations used by the client
    (subscripting, [in], truth value, iteration, arithmetic, slicing) are
    written out with the exceptions they raise.  JSON numbers are taken
    to be integers; Python 3 semantics is used throughout. *)

From Stdlib Require Import ZArith List String Ascii Bool Lia.
From Stdlib Require Import DecimalString.
Import ListNotations.
Open Scope string_scope.
Open Scope Z_scope.
Set Warnings "-register-all".

(** ** Python values and exceptions *)

Inductive json : Type :=
| JNull
| JBool (b : bool)
| JInt (z : Z)
| JStr (s : string)
| JList (l : list json)
| JDict (d : list (string * json)).

(** Exceptions a call can end with.  [OutOfFuel] is not a Python
    exception: it marks a run of a [while True] loop that was cut by the
    bound the model puts on the number of iterations. *)
Inductive exn : Type :=
| KeyError
| TypeError
| IndexError
| ValueError
| ClientError
| EncodingError
| IntegrityError
| OutOfFuel.

Inductive result (A : Type) : Type :=
| Ok (a : A)
| Raise (e : exn).
Arguments Ok {A} a.
Arguments Raise {A} e.

Definition rbind {A B} (r : result A) (f : A -> result B) : result B :=
  match r with
  | Ok a => f a
  | Raise e => Raise e
  end.

Module PurePy.

(** [bool] is a subclass of [int] in Python: [True] counts as 1. *)
Definition as_int (j : json) : option Z :=
  match j with
  | JInt z => Some z
  | JBool b => Some (if b then 1 else 0)
  | _ => None
  end.

(** Truth value of an object, as tested by [if x:]. *)
Definition truthy (j : json) : bool :=
  match j with
  | JNull => false
  | JBool b => b
  | JInt z => negb (z =? 0)
  | JStr s => negb (s =? "")%string
  | JList l => match l with [] => false | _ => true end
  | JDict d => match d with [] => false | _ => true end
  end.

Fixpoint lookup (k : string) (d : list (string * json)) : option json :=
  match d with
  | [] => None
  | (k', v) :: d' => if (k =? k')%string then Some v else lookup k d'
  end.

(** Index of a sequence of length [n]: negative indices count from the
    end. *)
Definition seq_index (n : nat) (i : Z) : option nat :=
  if (0 <=? i) && (i <? Z.of_nat n) then Some (Z.to_nat i)
  else if (i <? 0) && (0 <=? Z.of_nat n + i) then Some (Z.to_nat (Z.of_nat n + i))
  else None.

Definition chars (s : string) : list json :=
  map (fun c => JStr (String c EmptyString)) (list_ascii_of_string s).

(** [c[k]] *)
Definition getitem (c k : json) : result json :=
  match c with
  | JDict d =>
      match k with
      | JStr s => match lookup s d with Some v => Ok v | None => Raise KeyError end
      | JList _ | JDict _ => Raise TypeError
      | _ => Raise KeyError
      end
  | JList l =>
      match as_int k with
      | Some i =>
          match seq_index (List.length l) i with
          | Some n => match nth_error l n with Some v => Ok v | None => Raise IndexError end
          | None => Raise IndexError
          end
      | None => Raise TypeError
      end
  | JStr s =>
      match as_int k with
      | Some i =>
          match seq_index (String.length s) i with
          | Some n => match nth_error (chars s) n with Some v => Ok v | None => Raise IndexError end
          | None => Raise IndexError
          end
      | None => Raise TypeError
      end
  | _ => Raise TypeError
  end.

(** [j == s] for a [str] object [s]. *)
Definition eq_str (j : json) (s : string) : bool :=
  match j with
  | JStr s' => (s' =? s)%string
  | _ => false
  end.

(** [s in c] for a [str] object [s]: key of a dict, element of a list,
    substring of a string. *)
Definition contains (s : string) (c : json) : result bool :=
  match c with
  | JDict d => Ok (match lookup s d with Some _ => true | None => false end)
  | JList l => Ok (existsb (fun x => eq_str x s) l)
  | JStr t => Ok (match String.index 0 s t with Some _ => true | None => false end)
  | _ => Raise TypeError
  end.

(** The items a [for] loop runs over: the elements of a list, the keys of
    a dict, the characters of a string. *)
Definition iter (j : json) : result (list json) :=
  match j with
  | JList l => Ok l
  | JDict d => Ok (map (fun kv => JStr (fst kv)) d)
  | JStr s => Ok (chars s)
  | _ => Raise TypeError
  end.

Definition sub (a b : json) : result json :=
  match as_int a, as_int b with
  | Some x, Some y => Ok (JInt (x - y))
  | _, _ => Raise TypeError
  end.

Definition add (a b : json) : result json :=
  match as_int a, as_int b with
  | Some x, Some y => Ok (JInt (x + y))
  | _, _ => Raise TypeError
  end.

(** [n > j] for an [int] object [n]. *)
Definition int_gt (n : Z) (j : json) : result bool :=
  match as_int j with
  | Some y => Ok (y <? n)
  | None => Raise TypeError
  end.

(** [str(n)] for an [int] object [n]. *)
Definition str_of_int (n : Z) : string :=
  NilZero.string_of_int (Z.to_int n).

(** [l[:m]]: the first [m] elements, and for a negative [m] all but the
    last [-m]. *)
Definition slice_to {A} (l : list A) (m : Z) : list A :=
  if 0 <=? m then firstn (Z.to_nat m) l
  else firstn (Z.to_nat (Z.of_nat (List.length l) + m)) l.

(** [s[-1:]] *)
Fixpoint last_char (s : string) : string :=
  match s with
  | EmptyString => EmptyString
  | String c EmptyString => String c EmptyString
  | String _ s' => last_char s'
  end.

End PurePy.

(** ** Calls that talk to the provider

    A call of the client runs against the provider and leaves a trace of
    the requests it issued, oldest first.  The trace is kept when the call
    ends with an exception. *)

Definition variables : Type := list (string * json).

Record request_rec : Type := mkRequest {
  url_path : string;
  req_variables : option variables
}.

Definition M (A : Type) : Type := list request_rec -> result A * list request_rec.

Definition ret {A} (a : A) : M A := fun log => (Ok a, log).

Definition raise {A} (e : exn) : M A := fun log => (Raise e, log).

Definition bind {A B} (m : M A) (f : A -> M B) : M B :=
  fun log =>
    match m log with
    | (Ok a, log') => f a log'
    | (Raise e, log') => (Raise e, log')
    end.

Definition lift {A} (r : result A) : M A := fun log => (r, log).

Declare Scope py_scope.
Delimit Scope py_scope with py.
Notation "x <- m ;; k" := (bind m (fun x => k))
  (at level 61, m at next level, right associativity) : py_scope.
Notation "x <~ r ;; k" := (rbind r (fun x => k))
  (at level 61, r at next level, right associativity) : py_scope.
Notation "c .[ k ]" := (PurePy.getitem c (JStr k))
  (at level 1, left associativity, format "c .[ k ]") : py_scope.
Open Scope py_scope.

(** A [for] loop whose body updates one accumulated variable and may
    raise. *)
Fixpoint for_each {A B} (body : A -> B -> result A) (acc : A) (l : list B) : result A :=
  match l with
  | [] => Ok acc
  | x :: l' => acc' <~ body acc x ;; for_each body acc' l'
  end.

Fixpoint for_eachM {A B} (body : A -> B -> M A) (acc : A) (l : list B) : M A :=
  match l with
  | [] => ret acc
  | x :: l' => acc' <- body acc x ;; for_eachM body acc' l'
  end.

(** Run a call from an empty trace. *)
Definition run {A} (m : M A) : result A * list request_rec := m [].
Definition value {A} (m : M A) : result A := fst (run m).
Definition trace {A} (m : M A) : list request_rec := snd (run m).

(** ** The transaction object of [bitcoinlib.transactions]

    Only the attributes the client reads or assigns.  Attributes assigned
    from the provider's payload hold JSON values. *)

Definition Network : Type := string.

Inductive datetime : Type :=
| Datetime (t : Z).

Record Input : Type := mkInput {
  index_n : Z;
  in_value : json
}.

Record Output : Type := mkOutput {
  output_n : Z;
  spent : bool
}.

Record Transaction : Type := mkTransaction {
  status : string;
  hash : json;
  date : option datetime;
  confirmations : json;
  block_height : json;
  block_hash : json;
  fee : json;
  rawtx : json;
  size : json;
  network : Network;
  coinbase : bool;
  inputs : list Input;
  outputs : list Output;
  input_total : json;
  output_total : json
}.

(** The dict [getutxos] builds for an unspent output. *)
Record utxo_rec : Type := mkUtxo {
  u_address : json;
  u_tx_hash : json;
  u_confirmations : json;
  u_output_n : Z;
  u_input_n : Z;
  u_block_height : json;
  u_fee : json;
  u_size : Z;
  u_value : json;
  u_script : json;
  u_date : datetime
}.

(** ** [BitapsClient] *)

Module Bitaps.
Import PurePy.

Section Client.

(** [BaseClient.request]: the transport to the provider, a function of
    the request. *)
Variable request : string -> option variables -> result json.

(** [self.network] *)
Variable self_network : Network.

(** [Transaction.import_raw], the transaction codec. *)
Variable import_raw : json -> Network -> result Transaction.

(** [datetime.fromtimestamp] *)
Variable fromtimestamp : json -> result datetime.

(** [int] applied to a [str] object. *)
Variable int_of_str : string -> result Z.

Definition int (j : json) : result Z :=
  match j with
  | JStr s => int_of_str s
  | JInt z => Ok z
  | JBool b => Ok (if b then 1 else 0)
  | _ => Raise TypeError
  end.

Definition self_request (url : string) (vars : option variables) : M json :=
  fun log => (request url vars, (log ++ [mkRequest url vars])%list).

Definition compose_request (category command data : string)
           (vars : option variables) (type : string) : M json :=
  let url_path := type ++ "/" ++ category in
  let url_path :=
    if truthy (JStr command) then url_path ++ "/" ++ command else url_path in
  let url_path :=
    if truthy (JStr data) then
      let url_path :=
        if negb (last_char url_path =? "/")%string then url_path ++ "/"
        else url_path in
      url_path ++ data
    else url_path in
  self_request url_path vars.

Definition getbalance (addresslist : list string) : M json :=
  let balance := JInt 0 in
  for_eachM (fun balance address =>
    res <- compose_request "address" "state" address None "blockchain" ;;
    data <- lift res.["data"] ;;
    b <- lift data.["balance"] ;;
    lift (add balance b)) balance addresslist.

(** The request variables of one page of an address's history. *)
Definition page_variables (page : Z) : variables :=
  [("mode", JStr "verbose"); ("limit", JInt 50); ("page", JInt page);
   ("order", JStr "1")].

(** The page a request asks for. *)
Definition page_number (vars : option variables) : option Z :=
  match vars with
  | Some v => match lookup "page" v with Some (JInt p) => Some p | _ => None end
  | None => None
  end.

(** *** [getutxos] *)

(** The condition of the [continue] at line 68, with its short-circuit
    [or]. *)
Definition skip_output (address : string) (utxo : json) : result bool :=
  has <~ contains "address" utxo ;;
  if negb has then Ok true
  else
    a <~ utxo.["address"] ;;
    if negb (eq_str a address) then Ok true
    else
      s <~ utxo.["spent"] ;;
      Ok (truthy s).

Definition utxo_dict (tx outp utxo : json) : result utxo_rec :=
  a <~ utxo.["address"] ;;
  h <~ tx.["txId"] ;;
  c <~ tx.["confirmations"] ;;
  n <~ int outp ;;
  bh <~ tx.["blockHeight"] ;;
  v <~ utxo.["value"] ;;
  sc <~ utxo.["scriptPubKey"] ;;
  ts <~ tx.["timestamp"] ;;
  d <~ fromtimestamp ts ;;
  Ok {| u_address := a; u_tx_hash := h; u_confirmations := c;
        u_output_n := n; u_input_n := 0; u_block_height := bh;
        u_fee := JNull; u_size := 0; u_value := v; u_script := sc;
        u_date := d |}.

(** Body of [for outp in tx['vOut']]. *)
Definition getutxos_outp (address : string) (tx : json)
           (utxos : list utxo_rec) (outp : json) : result (list utxo_rec) :=
  vout <~ tx.["vOut"] ;;
  utxo <~ getitem vout outp ;;
  skip <~ skip_output address utxo ;;
  if skip then Ok utxos
  else
    u <~ utxo_dict tx outp utxo ;;
    Ok (utxos ++ [u])%list.

(** Body of [for tx in txs]. *)
Definition getutxos_tx (address after_txid : string)
           (utxos : list utxo_rec) (tx : json) : result (list utxo_rec) :=
  vout <~ tx.["vOut"] ;;
  outps <~ iter vout ;;
  utxos <~ for_each (getutxos_outp address tx) utxos outps ;;
  h <~ tx.["hash"] ;;
  if eq_str h after_txid then Ok [] else Ok utxos.

(** The [while True] loop, cut after [fuel] iterations. *)
Fixpoint getutxos_loop (fuel : nat) (address after_txid : string)
         (utxos : list utxo_rec) (page : Z) : M (list utxo_rec) :=
  match fuel with
  | O => raise OutOfFuel
  | S fuel' =>
      let vars := page_variables page in
      res <- compose_request "address" "transactions" address (Some vars) "blockchain" ;;
      data <- lift res.["data"] ;;
      txs <- lift data.["list"] ;;
      txs <- lift (iter txs) ;;
      utxos <- lift (for_each (getutxos_tx address after_txid) utxos txs) ;;
      let page := page + 1 in
      data <- lift res.["data"] ;;
      pages <- lift data.["pages"] ;;
      stop <- lift (int_gt page pages) ;;
      if stop then ret utxos
      else getutxos_loop fuel' address after_txid utxos page
  end.

Definition getutxos (fuel : nat) (address after_txid : string) (max_txs : Z)
  : M (list utxo_rec) :=
  let utxos := [] in
  let page := 1 in
  utxos <- getutxos_loop fuel address after_txid utxos page ;;
  ret (slice_to utxos max_txs).

(** *** [_parse_transaction] *)

(** [for x in xs: <update x>], the updated objects in order. *)
Fixpoint for_update {A} (f : A -> result A) (xs : list A) : result (list A) :=
  match xs with
  | [] => Ok []
  | x :: xs' => x' <~ f x ;; xs'' <~ for_update f xs' ;; Ok (x' :: xs'')
  end.

(** [i.value = tx['vIn'][str(i.index_n)]['amount']] *)
Definition set_input_value (tx : json) (i : Input) : result Input :=
  vin <~ tx.["vIn"] ;;
  e <~ vin.[str_of_int (index_n i)] ;;
  a <~ e.["amount"] ;;
  Ok {| index_n := index_n i; in_value := a |}.

(** [if tx['vOut'][str(o.output_n)]['spent']: o.spent = True] *)
Definition set_output_spent (tx : json) (o : Output) : result Output :=
  vout <~ tx.["vOut"] ;;
  e <~ vout.[str_of_int (output_n o)] ;;
  s <~ e.["spent"] ;;
  if truthy s then Ok {| output_n := output_n o; spent := true |} else Ok o.

Definition _parse_transaction (tx : json) : result Transaction :=
  raw <~ tx.["rawTx"] ;;
  t <~ import_raw raw self_network ;;
  let status' := "unconfirmed" in
  c <~ tx.["confirmations"] ;;
  let status' := if truthy c then "confirmed" else status' in
  hash' <~ tx.["txId"] ;;
  has_ts <~ contains "timestamp" tx ;;
  date' <~ (if has_ts then
              ts <~ tx.["timestamp"] ;; d <~ fromtimestamp ts ;; Ok (Some d)
            else
              has_bt <~ contains "blockTime" tx ;;
              if has_bt then
                bt <~ tx.["blockTime"] ;; d <~ fromtimestamp bt ;; Ok (Some d)
              else Ok (date t)) ;;
  confirmations' <~ tx.["confirmations"] ;;
  has_bh <~ contains "blockHeight" tx ;;
  block' <~ (if has_bh then
               bh <~ tx.["blockHeight"] ;; bhash <~ tx.["blockHash"] ;;
               Ok (bh, bhash)
             else Ok (block_height t, block_hash t)) ;;
  fee' <~ tx.["fee"] ;;
  rawtx' <~ tx.["rawTx"] ;;
  size' <~ tx.["size"] ;;
  let network' := self_network in
  inputs' <~ (if negb (coinbase t) then for_update (set_input_value tx) (inputs t)
              else Ok (inputs t)) ;;
  outputs' <~ for_update (set_output_spent tx) (outputs t) ;;
  input_total' <~ (if coinbase t then
                     oa <~ tx.["outputsAmount"] ;; sub oa fee'
                   else tx.["inputsAmount"]) ;;
  output_total' <~ tx.["outputsAmount"] ;;
  Ok {| status := status'; hash := hash'; date := date';
        confirmations := confirmations';
        block_height := fst block'; block_hash := snd block';
        fee := fee'; rawtx := rawtx'; size := size'; network := network';
        coinbase := coinbase t; inputs := inputs'; outputs := outputs';
        input_total := input_total'; output_total := output_total' |}.

(** *** [gettransactions] *)

(** Body of [for tx in res['data']['list']]. *)
Definition gettransactions_tx (after_txid : string)
           (txs : list Transaction) (tx : json) : result (list Transaction) :=
  t <~ _parse_transaction tx ;;
  let txs := (txs ++ [t])%list in
  i <~ tx.["txId"] ;;
  if eq_str i after_txid then Ok [] else Ok txs.

Fixpoint gettransactions_loop (fuel : nat) (address after_txid : string)
         (page : Z) (txs : list Transaction) : M (list Transaction) :=
  match fuel with
  | O => raise OutOfFuel
  | S fuel' =>
      let vars := page_variables page in
      res <- compose_request "address" "transactions" address (Some vars) "blockchain" ;;
      data <- lift res.["data"] ;;
      l <- lift data.["list"] ;;
      l <- lift (iter l) ;;
      txs <- lift (for_each (gettransactions_tx after_txid) txs l) ;;
      let page := page + 1 in
      data <- lift res.["data"] ;;
      pages <- lift data.["pages"] ;;
      stop <- lift (int_gt page pages) ;;
      if stop then ret txs
      else gettransactions_loop fuel' address after_txid page txs
  end.

Definition gettransactions (fuel : nat) (address after_txid : string)
           (max_txs : Z) : M (list Transaction) :=
  let page := 0 in
  let txs := [] in
  txs <- gettransactions_loop fuel address after_txid page txs ;;
  ret (slice_to txs max_txs).

(** *** The calls that issue one request *)

Definition gettransaction (txid : string) : M Transaction :=
  res <- compose_request "transaction" txid "" None "blockchain" ;;
  data <- lift res.["data"] ;;
  lift (_parse_transaction data).

Definition getrawtransaction (txid : string) : M json :=
  tx <- compose_request "transaction" txid "" None "blockchain" ;;
  data <- lift tx.["data"] ;;
  lift data.["rawTx"].

Definition block_count : M json :=
  res <- compose_request "block" "last" "" None "blockchain" ;;
  data <- lift res.["data"] ;;
  block <- lift data.["block"] ;;
  lift block.["height"].

(** [[f(x) for x in xs]] *)
Fixpoint list_comp {A B} (f : A -> result B) (xs : list A) : result (list B) :=
  match xs with
  | [] => Ok []
  | x :: xs' => y <~ f x ;; ys <~ list_comp f xs' ;; Ok (y :: ys)
  end.

(** A [Transaction] object is true as a condition, so [if t and not
    t.confirmations] goes by the confirmations alone. *)
Definition mempool (txid : string) : M (list json) :=
  if truthy (JStr txid) then
    t <- gettransaction txid ;;
    if negb (truthy (confirmations t)) then ret [hash t]
    else ret []
  else
    res <- compose_request "transactions" "" "" None "mempool" ;;
    data <- lift res.["data"] ;;
    txs <- lift data.["transactions"] ;;
    txs <- lift (iter txs) ;;
    lift (list_comp (fun tx => tx.["hash"]) txs).

End Client.
End Bitaps.

(** ** The ledger schema of [db.py]

    The tables [keys] and [transactions] with the columns their
    [__table_args__] constrain, and these constraints.  A column value is
    [None] when the attribute is unset, which the database holds as NULL.
    A CHECK is violated when its condition is false (in SQL a condition
    on NULL is unknown, and unknown passes), a UNIQUE constraint when a
    stored row has the same non-NULL values. *)

Module Db.

Record DbKey : Type := mkDbKey {
  key_id : option Z;
  key_public : option string;
  key_private : option string;
  key_wif : option string;
  key_type : option string;
  key_address : option string;
  key_encoding : option string;
  key_wallet_id : option Z
}.

Record DbTransaction : Type := mkDbTransaction {
  tx_id : option Z;
  tx_hash : option string;
  tx_wallet_id : option Z;
  tx_witness_type : option string;
  tx_status : option string
}.

Record Store : Type := mkStore {
  keys : list DbKey;
  transactions : list DbTransaction
}.

Definition empty : Store := {| keys := []; transactions := [] |}.

(** [column.in_(values)] in SQL's three-valued logic. *)
Definition in_ (column : option string) (values : list string) : option bool :=
  match column with
  | Some v => Some (existsb (String.eqb v) values)
  | None => None
  end.

Inductive constraint (row : Type) : Type :=
| CheckConstraint (condition : row -> option bool)
| UniqueConstraint (same : row -> row -> option bool).
Arguments CheckConstraint {row} condition.
Arguments UniqueConstraint {row} same.

(** Equality of two column values, unknown when one is NULL. *)
Definition sql_eq {A} (eqb : A -> A -> bool) (x y : option A) : option bool :=
  match x, y with
  | Some a, Some b => Some (eqb a b)
  | _, _ => None
  end.

Definition sql_and (x y : option bool) : option bool :=
  match x, y with
  | Some false, _ | _, Some false => Some false
  | Some true, Some true => Some true
  | _, _ => None
  end.

Definition is_false (x : option bool) : bool :=
  match x with Some false => true | _ => false end.

Definition is_true (x : option bool) : bool :=
  match x with Some true => true | _ => false end.

(** Does the table, with the row added, satisfy the constraint? *)
Definition satisfied {row} (table : list row) (r : row) (c : constraint row) : bool :=
  match c with
  | CheckConstraint condition => negb (is_false (condition r))
  | UniqueConstraint same => negb (existsb (fun r' => is_true (same r' r)) table)
  end.

Definition status_allowed : list string :=
  ["new"; "incomplete"; "unconfirmed"; "confirmed"].

Definition encodings_allowed : list string := ["base58"; "bech32"].

Definition DbKey_table_args : list (constraint DbKey) :=
  [ CheckConstraint (fun k => in_ (key_type k) ["single"; "bip32"; "multisig"]);
    CheckConstraint (fun k => in_ (key_encoding k) encodings_allowed);
    UniqueConstraint (fun a b =>
      sql_and (sql_eq Z.eqb (key_wallet_id a) (key_wallet_id b))
              (sql_eq String.eqb (key_public a) (key_public b)));
    UniqueConstraint (fun a b =>
      sql_and (sql_eq Z.eqb (key_wallet_id a) (key_wallet_id b))
              (sql_eq String.eqb (key_private a) (key_private b)));
    UniqueConstraint (fun a b =>
      sql_and (sql_eq Z.eqb (key_wallet_id a) (key_wallet_id b))
              (sql_eq String.eqb (key_wif a) (key_wif b)));
    UniqueConstraint (fun a b =>
      sql_and (sql_eq Z.eqb (key_wallet_id a) (key_wallet_id b))
              (sql_eq String.eqb (key_address a) (key_address b))) ].

Definition DbTransaction_table_args : list (constraint DbTransaction) :=
  [ UniqueConstraint (fun a b =>
      sql_and (sql_eq Z.eqb (tx_wallet_id a) (tx_wallet_id b))
              (sql_eq String.eqb (tx_hash a) (tx_hash b)));
    CheckConstraint (fun t => in_ (tx_status t) status_allowed);
    CheckConstraint (fun t => in_ (tx_witness_type t) ["legacy"; "segwit"]) ].

(** The primary key comes from the table's sequence when it is unset. *)
Definition next_id (ids : list (option Z)) : Z :=
  1 + fold_right (fun i m => match i with Some z => Z.max z m | None => m end) 0 ids.

Definition or_default {A} (x : option A) (d : A) : option A :=
  match x with Some _ => x | None => Some d end.

Definition DbKey_defaults (table : list DbKey) (k : DbKey) : DbKey :=
  {| key_id := or_default (key_id k) (next_id (map key_id table));
     key_public := key_public k; key_private := key_private k;
     key_wif := key_wif k;
     key_type := or_default (key_type k) "bip32";
     key_address := key_address k;
     key_encoding := or_default (key_encoding k) "base58";
     key_wallet_id := key_wallet_id k |}.

Definition DbTransaction_defaults (table : list DbTransaction) (t : DbTransaction)
  : DbTransaction :=
  {| tx_id := or_default (tx_id t) (next_id (map tx_id table));
     tx_hash := tx_hash t; tx_wallet_id := tx_wallet_id t;
     tx_witness_type := or_default (tx_witness_type t) "legacy";
     tx_status := or_default (tx_status t) "new" |}.

Definition primary_key_free {row} (id : row -> option Z) (table : list row) (r : row) : bool :=
  negb (existsb (fun r' => is_true (sql_eq Z.eqb (id r') (id r))) table).

(** Modelled from the spec: the write path of the ledger store
    ([session.add] and [session.commit] in the wallet code, and the
    database engine that evaluates the schema) is not among the sources.
    As the spec has it, the schema's CHECK constraints reject any write
    that uses a value outside its enumerated set, and the store enforces
    uniqueness: a row is added when its primary key is free and every
    constraint of the table's [__table_args__] is satisfied, and the write
    fails otherwise. *)
Definition insert {row} (id : row -> option Z) (args : list (constraint row))
           (table : list row) (r : row) : result (list row) :=
  if primary_key_free id table r && forallb (satisfied table r) args
  then Ok (table ++ [r])%list
  else Raise IntegrityError.

(** Modelled from the spec: persisting an object, the columns left unset
    taking the defaults the table declares. *)
Definition persist_key (s : Store) (k : DbKey) : result Store :=
  table <~ insert key_id DbKey_table_args (keys s) (DbKey_defaults (keys s) k) ;;
  Ok {| keys := table; transactions := transactions s |}.

(** Modelled from the spec: as [persist_key], for a transaction. *)
Definition persist_transaction (s : Store) (t : DbTransaction) : result Store :=
  table <~ insert tx_id DbTransaction_table_args (transactions s)
                  (DbTransaction_defaults (transactions s) t) ;;
  Ok {| keys := keys s; transactions := table |}.

(** The stores that a sequence of accepted writes builds. *)
Inductive reachable : Store -> Prop :=
| reach_empty : reachable empty
| reach_key s k s' :
    reachable s -> persist_key s k = Ok s' -> reachable s'
| reach_transaction s t s' :
    reachable s -> persist_transaction s t = Ok s' -> reachable s'.

End Db.

(** ** The [wallets] table and the opening of a database *)

Module DbWallets.
Import Db.

Record DbWallet : Type := mkDbWallet {
  wallet_id : option Z;
  wallet_name : option string;
  wallet_scheme : option string;
  wallet_witness_type : option string;
  wallet_encoding : option string
}.

Definition DbWallet_table_args : list (constraint DbWallet) :=
  [ CheckConstraint (fun w => in_ (wallet_scheme w) ["single"; "bip32"]);
    CheckConstraint (fun w => in_ (wallet_encoding w) ["base58"; "bech32"]);
    CheckConstraint (fun w =>
      in_ (wallet_witness_type w) ["legacy"; "segwit"; "p2sh-segwit"]) ].

(** The column [name] is declared [unique=True]. *)
Definition DbWallet_constraints : list (constraint DbWallet) :=
  UniqueConstraint (fun a b => sql_eq String.eqb (wallet_name a) (wallet_name b))
  :: DbWallet_table_args.

Definition DbWallet_defaults (table : list DbWallet) (w : DbWallet) : DbWallet :=
  {| wallet_id := or_default (wallet_id w) (next_id (map wallet_id table));
     wallet_name := wallet_name w;
     wallet_scheme := wallet_scheme w;
     wallet_witness_type := or_default (wallet_witness_type w) "legacy";
     wallet_encoding := or_default (wallet_encoding w) "base58" |}.

(** Modelled from the spec: persisting a wallet, as [Db.persist_key]
    persists a key. *)
Definition persist_wallet (table : list DbWallet) (w : DbWallet)
  : result (list DbWallet) :=
  insert wallet_id DbWallet_constraints table (DbWallet_defaults table w).

End DbWallets.

Module DbInit.

Section Init.

(** A constant of [bitcoinlib.main]. *)
Variable BITCOINLIB_VERSION : string.

(** The table [config] (primary key [variable]) and the columns that
    [add_column] added to tables. *)
Record database : Type := mkDatabase {
  config : list (string * string);
  added_columns : list (string * string)
}.

(** [session.query(DbConfig.value).filter_by(variable=v).scalar()] *)
Fixpoint scalar (variable : string) (cfg : list (string * string)) : option string :=
  match cfg with
  | [] => None
  | (k, v) :: cfg' => if (k =? variable)%string then Some v else scalar variable cfg'
  end.

(** [session.merge(DbConfig(variable=k, value=v))]: the row with this
    primary key is updated, or inserted when there is none. *)
Fixpoint merge (variable value : string) (cfg : list (string * string))
  : list (string * string) :=
  match cfg with
  | [] => [(variable, value)]
  | (k, v) :: cfg' =>
      if (k =? variable)%string then (k, value) :: cfg'
      else (k, v) :: merge variable value cfg'
  end.

(** [query(DbConfig).filter(DbConfig.variable == k).update(...)] *)
Definition update (variable value : string) (cfg : list (string * string))
  : list (string * string) :=
  map (fun kv => if (fst kv =? variable)%string then (fst kv, value) else kv) cfg.

Definition _import_config_data (now url : string) (db : database) : database :=
  let cfg := merge "version" BITCOINLIB_VERSION (config db) in
  let cfg := merge "installation_date" now cfg in
  let cfg := merge "installation_url" url cfg in
  {| config := cfg; added_columns := added_columns db |}.

(** The block under [# VERIFY AND UPDATE DATABASE]. *)
Definition verify_and_update (db : database) : database :=
  let version_db := scalar "version" (config db) in
  if negb (match version_db with
           | Some v => (BITCOINLIB_VERSION =? v)%string
           | None => false
           end)
  then
    if match version_db with Some v => (v =? "0.4.10")%string | None => false end
       && (BITCOINLIB_VERSION =? "0.4.11")%string
    then
      {| config := update "version" BITCOINLIB_VERSION (config db);
         added_columns := (added_columns db ++ [("keys", "latest_txid")])%list |}
    else db
  else db.

(** What [__init__] does to the database it opens. *)
Definition init (now url : string) (db : database) : database :=
  verify_and_update (_import_config_data now url db).

End Init.
End DbInit.

(** ** The incremental fetch of the sync driver

    The state machine that both fetch loops are meant to follow: start at
    a first page with nothing collected; for each item of a page, in the
    order received, transform it into records and append them, and when
    the item's id equals the cursor discard everything collected so far;
    go on to the next page while the announced page count allows; cut the
    result to the cap at the end.  The first page, the transformation and
    the field read as the item's id are its parameters. *)

Module SyncDriver.
Import PurePy.

Section Driver.

Variable request : string -> option variables -> result json.
Context {A : Type}.
Variable transform : json -> result (list A).
Variable item_id : json -> result json.
Variable first_page : Z.

Definition step (seen_cursor : string) (collected : list A) (item : json)
  : result (list A) :=
  new <~ transform item ;;
  i <~ item_id item ;;
  if eq_str i seen_cursor then Ok [] else Ok (collected ++ new)%list.

Fixpoint fetch (fuel : nat) (address seen_cursor : string) (page : Z)
         (collected : list A) : M (list A) :=
  match fuel with
  | O => raise OutOfFuel
  | S fuel' =>
      res <- Bitaps.compose_request request "address" "transactions" address
               (Some (Bitaps.page_variables page)) "blockchain" ;;
      data <- lift res.["data"] ;;
      l <- lift data.["list"] ;;
      items <- lift (iter l) ;;
      collected <- lift (for_each (step seen_cursor) collected items) ;;
      pages <- lift data.["pages"] ;;
      more <- lift (int_gt (page + 1) pages) ;;
      if more then ret collected
      else fetch fuel' address seen_cursor (page + 1) collected
  end.

Definition sync_fetch (fuel : nat) (address seen_cursor : string)
           (max_results : Z) : M (list A) :=
  collected <- fetch fuel address seen_cursor first_page [] ;;
  ret (slice_to collected max_results).

End Driver.

(** *** What a provider serves *)

Section History.

Variable request : string -> option variables -> result json.

Definition history_url (address : string) : string :=
  if (address =? "")%string then "blockchain/address/transactions"
  else "blockchain/address/transactions/" ++ address.

Definition history_request (address : string) (page : Z) : request_rec :=
  mkRequest (history_url address) (Some (Bitaps.page_variables page)).

(** The items and the page count the provider answers for a page. *)
Definition page_of (address : string) (page : Z) : result (list json * json) :=
  res <~ request (history_url address) (Some (Bitaps.page_variables page)) ;;
  data <~ res.["data"] ;;
  l <~ data.["list"] ;;
  items <~ iter l ;;
  pages <~ data.["pages"] ;;
  Ok (items, pages).

Definition state_url (address : string) : string :=
  if (address =? "")%string then "blockchain/address/state"
  else "blockchain/address/state/" ++ address.

Definition state_request (address : string) : request_rec :=
  mkRequest (state_url address) None.

(** The balance the provider reports for an address. *)
Definition reported_balance (address : string) : result json :=
  res <~ request (state_url address) None ;;
  data <~ res.["data"] ;;
  data.["balance"].

Definition transaction_url (txid : string) : string :=
  if (txid =? "")%string then "blockchain/transaction"
  else "blockchain/transaction/" ++ txid.

(** The item the provider answers for a transaction id. *)
Definition reported_transaction (txid : string) : result json :=
  res <~ request (transaction_url txid) None ;;
  res.["data"].

(** From page [page] on the provider answers the pages of [hist], each
    with its items and the page count it announces, and the counts make
    [hist]'s last page the last one to fetch. *)
Fixpoint served (address : string) (page : Z) (hist : list (list json * Z)) : Prop :=
  match hist with
  | [] => False
  | (items, pages) :: rest =>
      page_of address page = Ok (items, JInt pages) /\
      match rest with
      | [] => pages < page + 1
      | _ => page + 1 <= pages /\ served address (page + 1) rest
      end
  end.

Fixpoint page_range (page : Z) (n : nat) : list Z :=
  match n with
  | O => []
  | S n' => page :: page_range (page + 1) n'
  end.

(** [tx] is an item of some page of the address's history. *)
Definition listed (address : string) (tx : json) : Prop :=
  exists page items pages,
    page_of address page = Ok (items, pages) /\ In tx items.

End History.

(** *** The cursor rule on a sequence of items *)

(** The part of [l] after its last element satisfying [p], if any
    element does. *)
Fixpoint after_last {X} (p : X -> bool) (l : list X) : option (list X) :=
  match l with
  | [] => None
  | x :: l' =>
      match after_last p l' with
      | Some s => Some s
      | None => if p x then Some l' else None
      end
  end.

(** The records collected from items given with their ids and records:
    those of the items after the last occurrence of the cursor, and with
    no occurrence all of them after what was there. *)
Definition newer {A} (seen_cursor : string) (collected : list A)
           (items : list (json * list A)) : list A :=
  match after_last (fun kn => eq_str (fst kn) seen_cursor) items with
  | Some s => List.concat (map snd s)
  | None => (collected ++ List.concat (map snd items))%list
  end.

Definition is_ok {X} (r : result X) : bool :=
  match r with Ok _ => true | Raise _ => false end.

Definition get {X} (r : result X) (d : X) : X :=
  match r with Ok x => x | Raise _ => d end.

(** An item under its id and the records it gives. *)
Definition keyed {A} (transform : json -> result (list A))
           (item_id : json -> result json) (item : json) : json * list A :=
  (get (item_id item) JNull, get (transform item) []).

Definition well_formed {A} (transform : json -> result (list A))
           (item_id : json -> result json) (item : json) : bool :=
  is_ok (transform item) && is_ok (item_id item).

(** The number of pages of a history that a run requests: all of them
    when every item is well-formed, and otherwise those up to and
    including the first page that holds an item on which the loop body
    raises. *)
Fixpoint requested_pages (wf : json -> bool) (hist : list (list json * Z)) : nat :=
  match hist with
  | [] => O
  | (items, _) :: rest =>
      if forallb wf items then S (requested_pages wf rest) else 1%nat
  end.

(** The statement that a call issues no request for a page after the one
    on which the cursor item appears. *)
Definition stops_at_cursor (request : string -> option variables -> result json)
           (address seen_cursor : string) (requests : list request_rec) : Prop :=
  forall page items pages tx,
    page_of request address page = Ok (items, pages) ->
    In tx items -> tx.["txId"] = Ok (JStr seen_cursor) ->
    forall r p, In r requests -> Bitaps.page_number (req_variables r) = Some p ->
                p <= page.


End SyncDriver.

(** ** The two fetch loops as instances of the driver *)

Module Instances.
Import PurePy.

Section Client.

Variable self_network : Network.
Variable import_raw : json -> Network -> result Transaction.
Variable fromtimestamp : json -> result datetime.
Variable int_of_str : string -> result Z.

(** The record [gettransactions] collects for an item. *)
Definition tx_records (tx : json) : result (list Transaction) :=
  t <~ Bitaps._parse_transaction self_network import_raw fromtimestamp tx ;;
  Ok [t].

(** The records [getutxos] collects for an item. *)
Definition tx_utxos (address : string) (tx : json) : result (list utxo_rec) :=
  vout <~ tx.["vOut"] ;;
  outps <~ iter vout ;;
  for_each (Bitaps.getutxos_outp fromtimestamp int_of_str address tx) [] outps.

(** [u] is the record of an output of a listed item that has an
    [address] key holding the queried address and a false [spent]. *)
Definition unspent_output_of (request : string -> option variables -> result json)
           (address : string) (u : utxo_rec) : Prop :=
  exists tx outp vout utxo,
    SyncDriver.listed request address tx /\
    tx.["vOut"] = Ok vout /\ getitem vout outp = Ok utxo /\
    contains "address" utxo = Ok true /\
    utxo.["address"] = Ok (JStr address) /\
    (exists s, utxo.["spent"] = Ok s /\ truthy s = false) /\
    Bitaps.utxo_dict fromtimestamp int_of_str tx outp utxo = Ok u.

(** An item lacks a confirmation count when it has no [confirmations]
    entry or a null one. *)
Definition lacks_confirmation_count (tx : json) : bool :=
  match tx.["confirmations"] with
  | Ok JNull => true
  | Ok _ => false
  | Raise _ => true
  end.

(** The status by the presence of a confirmation count. *)
Definition status_by_presence (tx : json) : string :=
  if lacks_confirmation_count tx then "unconfirmed" else "confirmed".

Definition txId (tx : json) : result json := tx.["txId"].

Definition hash_field (tx : json) : result json := tx.["hash"].

End Client.
End Instances.

(** ** A provider for the examples

    [paged_provider hist] answers the history request of any address
    with the pages of [hist], numbered from 1, and announces their number
    as the page count; a page number outside the history gets an empty
    page.  [state_provider] answers the state request of an address with
    the balance listed for it. *)

Module Fixture.
Import PurePy.

Definition response (l : list json) (pages : Z) : json :=
  JDict [("data", JDict [("list", JList l); ("pages", JInt pages)])].

Definition paged_provider (hist : list (list json))
           (url : string) (vars : option variables) : result json :=
  match Bitaps.page_number vars with
  | Some p =>
      let l := if 1 <=? p then nth (Z.to_nat (p - 1)) hist [] else [] in
      Ok (response l (Z.of_nat (List.length hist)))
  | None => Raise ClientError
  end.

Definition state_provider (balances : list (string * Z))
           (url : string) (vars : option variables) : result json :=
  match
    find (fun ab => (url =? "blockchain/address/state/" ++ fst ab)%string) balances
  with
  | Some ab => Ok (JDict [("data", JDict [("balance", JInt (snd ab))])])
  | None => Raise ClientError
  end.

Definition fromtimestamp (j : json) : result datetime :=
  match as_int j with
  | Some t => Ok (Datetime t)
  | None => Raise TypeError
  end.

Definition int_of_str (s : string) : result Z :=
  match NilZero.int_of_string s with
  | Some d => Ok (Z.of_int d)
  | None => Raise ValueError
  end.

(** A codec for the examples: the raw bytes ["cb"] decode to a coinbase
    transaction, any other string to an ordinary one; both have one
    input and one output. *)
Definition decoded (cb : bool) : Transaction :=
  {| status := "new"; hash := JNull; date := None; confirmations := JNull;
     block_height := JNull; block_hash := JNull; fee := JNull;
     rawtx := JNull; size := JNull; network := "bitcoin"; coinbase := cb;
     inputs := [mkInput 0 (JInt 0)]; outputs := [mkOutput 0 false];
     input_total := JInt 0; output_total := JInt 0 |}.

Definition import_raw (raw : json) (net : Network) : result Transaction :=
  match raw with
  | JStr s => Ok (decoded (s =? "cb")%string)
  | _ => Raise EncodingError
  end.

(** An item of the provider's transaction list with one input and one
    output. *)
Definition item (txid hash_ raw : string) (conf : Z) (block : option Z)
           (addr : option string) (spent_ : bool) (amount fee_ : Z) : json :=
  JDict
    ([("txId", JStr txid); ("hash", JStr hash_); ("rawTx", JStr raw);
      ("confirmations", JInt conf); ("timestamp", JInt 1565000000)]
     ++ match block with
        | Some h => [("blockHeight", JInt h); ("blockHash", JStr "00ab")]
        | None => []
        end
     ++ [("fee", JInt fee_); ("size", JInt 200);
         ("inputsAmount", JInt (amount + fee_)); ("outputsAmount", JInt amount);
         ("vIn", JDict [("0", JDict [("amount", JInt (amount + fee_))])]);
         ("vOut",
          JDict [("0",
                  JDict (match addr with
                         | Some a => [("address", JStr a)]
                         | None => []
                         end
                         ++ [("spent", JBool spent_); ("value", JInt amount);
                             ("scriptPubKey", JStr "76a9")]))])])%list.

(** A confirmed transaction paying 1000 to address ["addr"], unspent. *)
Definition plain (txid : string) : json :=
  item txid txid "tx" 3 (Some 100) (Some "addr") false 1000 10.

Definition gettransactions hist :=
  Bitaps.gettransactions (paged_provider hist) "bitcoin" import_raw fromtimestamp.

Definition getutxos hist :=
  Bitaps.getutxos (paged_provider hist) fromtimestamp int_of_str.

Definition _parse_transaction :=
  Bitaps._parse_transaction "bitcoin" import_raw fromtimestamp.

(** Histories for the examples.  In [segwit_pages] the item with id
    ["B"] has a [hash] that differs from its [txId], as the provider
    reports for a transaction with witness data. *)
Definition two_pages : list (list json) :=
  [[plain "A"; plain "B"]; [plain "C"; plain "D"]].

Definition segwit_pages : list (list json) :=
  [[plain "A"; item "B" "Bw" "tx" 3 (Some 100) (Some "addr") false 1000 10];
   [plain "C"; plain "D"]].

Definition busy_page : list (list json) :=
  [map (fun n => plain (str_of_int n)) (SyncDriver.page_range 1 25)].

(** A history as [paged_provider] serves it, each page with the page
    count announced: from page 0 on, where page 0 is empty, and from
    page 1 on. *)
Definition served_from_0 (hist : list (list json)) : list (list json * Z) :=
  map (fun l => (l, Z.of_nat (List.length hist))) ([] :: hist).

Definition served_from_1 (hist : list (list json)) : list (list json * Z) :=
  map (fun l => (l, Z.of_nat (List.length hist))) hist.

(** An item still in the mempool: its confirmation count is 0 and it has
    no block. *)
Definition unconfirmed_item : json :=
  item "U" "U" "tx" 0 None (Some "addr") false 1000 10.

(** A coinbase item: the provider lists no inputs for it. *)
Definition coinbase_item : json :=
  JDict [("txId", JStr "R"); ("hash", JStr "R"); ("rawTx", JStr "cb");
         ("confirmations", JInt 120); ("timestamp", JInt 1565000000);
         ("blockHeight", JInt 7); ("blockHash", JStr "00cd");
         ("fee", JInt 0); ("size", JInt 150); ("outputsAmount", JInt 50);
         ("vOut", JDict [("0", JDict [("address", JStr "addr");
                                      ("spent", JBool false);
                                      ("value", JInt 50);
                                      ("scriptPubKey", JStr "76a9")])])].

(** The records the parser gives for these two items. *)
Definition parsed_unconfirmed : Transaction :=
  Eval vm_compute in SyncDriver.get (_parse_transaction unconfirmed_item) (decoded false).

Definition parsed_coinbase : Transaction :=
  Eval vm_compute in SyncDriver.get (_parse_transaction coinbase_item) (decoded true).

(** A page with an output of the address that is spent, one with no
    address, one of another address and one unspent of the address. *)
Definition mixed_page : list (list json) :=
  [[item "S" "S" "tx" 3 (Some 100) (Some "addr") true 1000 10;
    item "N" "N" "tx" 3 (Some 100) None false 1000 10;
    item "O" "O" "tx" 3 (Some 100) (Some "other") false 1000 10;
    plain "P"]].

(** The one record [getutxos] returns on [mixed_page]. *)
Definition utxo_P : utxo_rec :=
  Eval vm_compute in
    hd (mkUtxo JNull JNull JNull 0 0 JNull JNull 0 JNull JNull (Datetime 0))
       (SyncDriver.get (value (getutxos mixed_page 1 "addr" "" 100)) []).

Definition getbalance (balances : list (string * Z)) :=
  Bitaps.getbalance (state_provider balances).

(** Rows for the examples of the ledger store. *)
Definition a_transaction (status : option string) : Db.DbTransaction :=
  Db.mkDbTransaction None (Some "ab12") (Some 1) None status.

Definition a_key (encoding : option string) : Db.DbKey :=
  Db.mkDbKey None (Some "02aa") None None None (Some "1addr") encoding (Some 1).

(** A provider that is down, one that answers the transaction request of
    the listed ids, one that answers the mempool request, one whose
    history never ends (page [p] announces [p + 1] pages) and one that
    fails on the page after [hist] while announcing that page. *)
Definition down_provider (url : string) (vars : option variables) : result json :=
  Raise ClientError.

Definition transaction_provider (txs : list (string * json))
           (url : string) (vars : option variables) : result json :=
  match find (fun kv => (url =? "blockchain/transaction/" ++ fst kv)%string) txs with
  | Some kv => Ok (JDict [("data", snd kv)])
  | None => Raise ClientError
  end.

Definition mempool_provider (txs : list json)
           (url : string) (vars : option variables) : result json :=
  if (url =? "mempool/transactions")%string
  then Ok (JDict [("data", JDict [("transactions", JList txs)])])
  else Raise ClientError.



(** A database left by version 0.4.10 of the library. *)
Definition old_database : DbInit.database :=
  {| DbInit.config := [("version", "0.4.10"); ("installation_date", "2019-08-01")];
     DbInit.added_columns := [] |}.

(** A history with an item that is not a transaction, and one with an
    item still in the mempool. *)
Definition damaged_pages : list (list json) :=
  [[plain "A"; JDict [("txId", JStr "X")]]; [plain "C"]].

Definition mempool_pages : list (list json) :=
  [[plain "A"; unconfirmed_item]].

Definition parsed_plain : Transaction :=
  Eval vm_compute in SyncDriver.get (_parse_transaction (plain "C")) (decoded false).

Definition spent_item : json :=
  item "S" "S" "tx" 3 (Some 100) (Some "addr") true 1000 10.

Definition parsed_spent : Transaction :=
  Eval vm_compute in SyncDriver.get (_parse_transaction spent_item) (decoded false).

(** What [gettransactions] returns on [two_pages] after the cursor [B],
    and [two_pages] as [broken_provider] serves it. *)
Definition txs_after_B : list Transaction :=
  Eval vm_compute in
    SyncDriver.get (value (gettransactions two_pages 3 "addr" "B" 100)) [].


(** A history whose first page holds an item with no block, on which
    the loop of [getutxos] raises. *)
Definition raising_pages : list (list json) :=
  [[plain "A"; unconfirmed_item]; [plain "C"]].

End Fixture.

(** * Properties *)

(** ** Loops and slices *)

Section ForEach.

Context {A B : Type}.
Variable body : A -> B -> result A.

Lemma for_each_app (l1 l2 : list B) (acc : A) :
  for_each body acc (l1 ++ l2) =
  (acc' <~ for_each body acc l1 ;; for_each body acc' l2).
Proof.
  revert acc; induction l1 as [|x l1 IH]; intros acc; simpl; [reflexivity|].
  destruct (body acc x); simpl; auto.
Qed.

Lemma for_each_ext (body' : A -> B -> result A) (l : list B) (acc : A) :
  (forall a x, In x l -> body a x = body' a x) ->
  for_each body acc l = for_each body' acc l.
Proof.
  revert acc; induction l as [|x l IH]; intros acc H; simpl; [reflexivity|].
  rewrite <- (H acc x) by (left; reflexivity).
  destruct (body acc x); simpl; auto.
  apply IH; intros; apply H; right; assumption.
Qed.

(** A property of the accumulated variable that every turn of the loop
    keeps holds at the end. *)
Lemma for_each_invariant (P : A -> Prop) (l : list B) (acc r : A) :
  (forall a x a', In x l -> P a -> body a x = Ok a' -> P a') ->
  P acc -> for_each body acc l = Ok r -> P r.
Proof.
  revert acc; induction l as [|x l IH]; intros acc Hstep Hacc Hrun; simpl in Hrun.
  - injection Hrun as <-; assumption.
  - destruct (body acc x) as [a'|e] eqn:Hb; simpl in Hrun; [|discriminate].
    apply (IH a'); auto.
    + intros a y a'' Hy; apply Hstep; right; assumption.
    + apply (Hstep acc x a'); auto; left; reflexivity.
Qed.

End ForEach.

Lemma slice_to_firstn {A} (l : list A) (m : Z) :
  0 <= m -> PurePy.slice_to l m = firstn (Z.to_nat m) l.
Proof.
  intros H; unfold PurePy.slice_to.
  destruct (0 <=? m) eqn:E; [reflexivity|]; apply Z.leb_gt in E; lia.
Qed.

Lemma slice_to_In {A} (l : list A) (m : Z) (x : A) :
  In x (PurePy.slice_to l m) -> In x l.
Proof.
  unfold PurePy.slice_to; destruct (0 <=? m); intros H;
    match type of H with
    | In _ (firstn ?n _) =>
        rewrite <- (firstn_skipn n l); apply in_or_app; left; exact H
    end.
Qed.

Lemma slice_to_length {A} (l : list A) (m : Z) :
  0 <= m -> Z.of_nat (List.length (PurePy.slice_to l m)) <= m.
Proof.
  intros H; rewrite slice_to_firstn by assumption.
  rewrite length_firstn; lia.
Qed.

Lemma eq_str_true (j : json) (s : string) :
  PurePy.eq_str j s = true -> j = JStr s.
Proof.
  destruct j; simpl; try discriminate.
  intros H; apply String.eqb_eq in H; congruence.
Qed.

(** ** The request of a page of history *)

Section Requests.

Variable request : string -> option variables -> result json.

Lemma compose_request_history (address : string) (vars : option variables) :
  Bitaps.compose_request request "address" "transactions" address vars "blockchain"
  = Bitaps.self_request request (SyncDriver.history_url address) vars.
Proof.
  unfold Bitaps.compose_request, SyncDriver.history_url.
  destruct address as [|c address]; reflexivity.
Qed.

End Requests.

(** ** The cursor rule *)

Section AfterLast.

Context {X : Type}.
Variable p : X -> bool.

Lemma after_last_None (l : list X) :
  SyncDriver.after_last p l = None <-> forallb (fun x => negb (p x)) l = true.
Proof.
  induction l as [|x l IH]; simpl; [tauto|].
  destruct (SyncDriver.after_last p l) as [s|].
  - split; [discriminate|].
    intros H; apply andb_prop in H; destruct H as [_ H].
    apply IH in H; discriminate.
  - destruct IH as [IH _]; rewrite (IH eq_refl), andb_true_r.
    destruct (p x); simpl; split; congruence.
Qed.

(** [after_last] splits the list at the last element satisfying [p]. *)
Lemma after_last_Some (l s : list X) :
  SyncDriver.after_last p l = Some s ->
  exists pre x, l = (pre ++ x :: s)%list /\ p x = true /\
                forallb (fun y => negb (p y)) s = true.
Proof.
  revert s; induction l as [|x l IH]; simpl; intros s H; [discriminate|].
  destruct (SyncDriver.after_last p l) as [s'|] eqn:E.
  - injection H as <-.
    destruct (IH s' eq_refl) as (pre & y & -> & Hy & Hs).
    exists (x :: pre), y; auto.
  - destruct (p x) eqn:Hx; [|discriminate].
    injection H as <-.
    exists [], x; repeat split; auto.
    apply after_last_None; assumption.
Qed.

End AfterLast.

Section Driver.

Variable request : string -> option variables -> result json.
Context {A : Type}.
Variable transform : json -> result (list A).
Variable item_id : json -> result json.

Abbreviation step := (SyncDriver.step transform item_id).
Abbreviation fetch := (SyncDriver.fetch request transform item_id).
Abbreviation keyed := (SyncDriver.keyed transform item_id).
Abbreviation well_formed := (SyncDriver.well_formed transform item_id).

Lemma newer_cons (cursor : string) (acc : list A) (k : json) (new : list A)
      (items : list (json * list A)) :
  SyncDriver.newer cursor acc ((k, new) :: items) =
  SyncDriver.newer cursor
    (if PurePy.eq_str k cursor then [] else acc ++ new)%list items.
Proof.
  unfold SyncDriver.newer; simpl.
  destruct (SyncDriver.after_last _ items); [reflexivity|].
  destruct (PurePy.eq_str k cursor); simpl; [reflexivity|].
  rewrite app_assoc; reflexivity.
Qed.

(** Running the loop body over well-formed items collects what the
    cursor rule says. *)
Lemma for_each_step_newer (cursor : string) (items : list json) (acc : list A) :
  forallb well_formed items = true ->
  for_each (step cursor) acc items =
  Ok (SyncDriver.newer cursor acc (map keyed items)).
Proof.
  revert acc; induction items as [|x items IH]; intros acc H; simpl in *.
  - unfold SyncDriver.newer; simpl; rewrite app_nil_r; reflexivity.
  - apply andb_prop in H; destruct H as [Hx H].
    unfold SyncDriver.well_formed in Hx; apply andb_prop in Hx.
    destruct Hx as [Ht Hi].
    unfold SyncDriver.keyed at 1, SyncDriver.step at 1.
    destruct (transform x) as [new|]; [|discriminate].
    destruct (item_id x) as [k|]; [|discriminate]; simpl.
    rewrite newer_cons.
    destruct (PurePy.eq_str k cursor); simpl; apply IH; assumption.
Qed.

(** Whether the loop body raises does not depend on the cursor nor on
    what was collected. *)
Lemma for_each_step_ok (cursor : string) (items : list json) (acc : list A) :
  SyncDriver.is_ok (for_each (step cursor) acc items) = forallb well_formed items.
Proof.
  revert acc; induction items as [|x items IH]; intros acc; simpl; [reflexivity|].
  unfold SyncDriver.well_formed at 1, SyncDriver.step at 1.
  destruct (transform x) as [new|]; simpl; [|reflexivity].
  destruct (item_id x) as [k|]; simpl; [|reflexivity].
  destruct (PurePy.eq_str k cursor); simpl; apply IH.
Qed.

Lemma fetch_step (fuel : nat) (address cursor : string) (page : Z)
      (acc : list A) (log : list request_rec) (items : list json) (pages : Z) :
  SyncDriver.page_of request address page = Ok (items, JInt pages) ->
  fetch (S fuel) address cursor page acc log =
  match for_each (step cursor) acc items with
  | Ok acc' =>
      if pages <? page + 1
      then (Ok acc', log ++ [SyncDriver.history_request address page])%list
      else fetch fuel address cursor (page + 1) acc'
             (log ++ [SyncDriver.history_request address page])%list
  | Raise e => (Raise e, log ++ [SyncDriver.history_request address page])%list
  end.
Proof.
  unfold SyncDriver.page_of; intros H.
  cbn [SyncDriver.fetch]; rewrite compose_request_history.
  unfold bind, lift, Bitaps.self_request, SyncDriver.history_request.
  destruct (request _ _) as [res|]; simpl in H; [|discriminate].
  destruct (res.["data"]) as [data|]; simpl in H; [|discriminate].
  destruct (data.["list"]) as [l|]; simpl in H; [|discriminate].
  destruct (PurePy.iter l) as [its|]; simpl in H; [|discriminate].
  destruct (data.["pages"]) as [pg|]; simpl in H; [|discriminate].
  injection H as -> ->.
  destruct (for_each _ acc items); simpl; [|reflexivity].
  destruct (pages <? page + 1); reflexivity.
Qed.

(** Against a served history the loop requests its pages one after the
    other and runs the body over their items in order. *)
Lemma fetch_served (address cursor : string) (hist : list (list json * Z)) :
  forall (page : Z) (acc r : list A) (log : list request_rec) (fuel : nat),
    SyncDriver.served request address page hist ->
    (List.length hist <= fuel)%nat ->
    for_each (step cursor) acc (List.concat (map fst hist)) = Ok r ->
    fetch fuel address cursor page acc log =
    (Ok r,
     (log ++ map (SyncDriver.history_request address)
                 (SyncDriver.page_range page (List.length hist)))%list).
Proof.
  induction hist as [|[items pages] rest IH]; intros page acc r log fuel Hs Hf Hr.
  - destruct Hs.
  - destruct fuel as [|fuel]; [simpl in Hf; lia|].
    destruct Hs as [Hp Hrest].
    rewrite (fetch_step _ _ _ _ _ _ _ _ Hp).
    cbn [map fst List.concat] in Hr; rewrite for_each_app in Hr.
    destruct (for_each (step cursor) acc items) as [acc'|e]; simpl in Hr;
      [|discriminate].
    destruct rest as [|pg rest].
    + apply Z.ltb_lt in Hrest; rewrite Hrest; simpl in *.
      injection Hr as <-; reflexivity.
    + destruct Hrest as [Hle Hrest].
      assert (E : (pages <? page + 1) = false) by (apply Z.ltb_ge; lia).
      rewrite E.
      rewrite (IH (page + 1) acc' r _ fuel Hrest) by (simpl in *; auto; lia).
      cbn [List.length SyncDriver.page_range map].
      rewrite <- app_assoc; reflexivity.
Qed.

End Driver.

Section DriverRun.

Variable request : string -> option variables -> result json.
Context {A : Type}.
Variable transform : json -> result (list A).
Variable item_id : json -> result json.

Abbreviation step := (SyncDriver.step transform item_id).
Abbreviation fetch := (SyncDriver.fetch request transform item_id).
Abbreviation well_formed := (SyncDriver.well_formed transform item_id).

Lemma requested_pages_all (hist : list (list json * Z)) :
  forallb well_formed (List.concat (map fst hist)) = true ->
  SyncDriver.requested_pages well_formed hist = List.length hist.
Proof.
  induction hist as [|[items pages] rest IH]; intros H; [reflexivity|].
  cbn [map fst List.concat] in H; rewrite forallb_app in H.
  apply andb_prop in H; destruct H as [Hi Hr].
  cbn [SyncDriver.requested_pages List.length]; rewrite Hi, (IH Hr); reflexivity.
Qed.

(** A run against a served history, whatever its items: the result is
    that of the body run over the items in order, an exception included,
    and the pages are requested one after the other until the last one or
    the first one on which the body raises. *)
Lemma fetch_served_run (address cursor : string) (hist : list (list json * Z)) :
  forall (page : Z) (acc : list A) (log : list request_rec) (fuel : nat),
    SyncDriver.served request address page hist ->
    (List.length hist <= fuel)%nat ->
    fetch fuel address cursor page acc log
    = (for_each (step cursor) acc (List.concat (map fst hist)),
       (log ++ map (SyncDriver.history_request address)
                   (SyncDriver.page_range page
                      (SyncDriver.requested_pages well_formed hist)))%list).
Proof.
  induction hist as [|[items pages] rest IH]; intros page acc log fuel Hs Hf.
  - destruct Hs.
  - destruct fuel as [|fuel]; [simpl in Hf; lia|].
    destruct Hs as [Hp Hrest].
    rewrite (fetch_step _ _ _ _ _ _ _ _ _ _ _ Hp).
    cbn [map fst List.concat SyncDriver.requested_pages]; rewrite for_each_app.
    pose proof (for_each_step_ok transform item_id cursor items acc) as O.
    destruct (for_each (step cursor) acc items) as [acc'|e]; cbn in O;
      rewrite <- O; cbn [rbind]; [|reflexivity].
    destruct rest as [|pg rest].
    + apply Z.ltb_lt in Hrest; rewrite Hrest; reflexivity.
    + destruct Hrest as [Hle Hrest].
      assert (E : (pages <? page + 1) = false) by (apply Z.ltb_ge; lia).
      rewrite E, (IH (page + 1) acc' _ fuel Hrest) by (simpl in *; lia).
      cbn [SyncDriver.page_range map]; rewrite <- app_assoc; reflexivity.
Qed.

(** The same for the whole call. *)
Lemma sync_fetch_served_run (first_page : Z) (address cursor : string)
      (max_results : Z) (hist : list (list json * Z)) (fuel : nat) :
  SyncDriver.served request address first_page hist ->
  (List.length hist <= fuel)%nat ->
  snd (SyncDriver.sync_fetch request transform item_id first_page
         fuel address cursor max_results [])
  = map (SyncDriver.history_request address)
        (SyncDriver.page_range first_page
           (SyncDriver.requested_pages well_formed hist))
  /\ SyncDriver.is_ok
       (fst (SyncDriver.sync_fetch request transform item_id first_page
               fuel address cursor max_results []))
     = forallb well_formed (List.concat (map fst hist))
  /\ (forallb well_formed (List.concat (map fst hist)) = true ->
      SyncDriver.requested_pages well_formed hist = List.length hist /\
      fst (SyncDriver.sync_fetch request transform item_id first_page
             fuel address cursor max_results [])
      = Ok (PurePy.slice_to
              (SyncDriver.newer cursor []
                 (map (SyncDriver.keyed transform item_id)
                      (List.concat (map fst hist))))
              max_results)).
Proof.
  intros Hs Hf; unfold SyncDriver.sync_fetch, bind, ret.
  rewrite (fetch_served_run address cursor hist first_page [] [] fuel Hs Hf).
  pose proof (for_each_step_ok transform item_id cursor
                (List.concat (map fst hist)) []) as O.
  split; [|split].
  - destruct (for_each _ _ _); reflexivity.
  - destruct (for_each _ _ _); exact O.
  - intros Hw; split; [apply requested_pages_all; assumption|].
    rewrite (for_each_step_newer transform item_id cursor _ [] Hw); reflexivity.
Qed.

End DriverRun.

(** ** The fetch loops of the client are instances of the driver *)

Section Loops.

Variable request : string -> option variables -> result json.
Variable self_network : Network.
Variable import_raw : json -> Network -> result Transaction.
Variable fromtimestamp : json -> result datetime.
Variable int_of_str : string -> result Z.

Abbreviation tx_records := (Instances.tx_records self_network import_raw fromtimestamp).
Abbreviation tx_utxos := (Instances.tx_utxos fromtimestamp int_of_str).
Abbreviation getutxos_outp := (Bitaps.getutxos_outp fromtimestamp int_of_str).

Lemma gettransactions_tx_step (after_txid : string) (txs : list Transaction) (tx : json) :
  Bitaps.gettransactions_tx self_network import_raw fromtimestamp after_txid txs tx
  = SyncDriver.step tx_records Instances.txId after_txid txs tx.
Proof.
  unfold Bitaps.gettransactions_tx, SyncDriver.step, Instances.tx_records,
    Instances.txId.
  destruct (Bitaps._parse_transaction _ _ _ tx); reflexivity.
Qed.

(** What the inner loop of [getutxos] appends does not depend on what was
    collected before. *)
Lemma getutxos_outp_append (address : string) (tx : json) (outps : list json)
      (utxos : list utxo_rec) :
  for_each (getutxos_outp address tx) utxos outps =
  (new <~ for_each (getutxos_outp address tx) [] outps ;; Ok (utxos ++ new)%list).
Proof.
  revert utxos.
  assert (body : forall acc outp,
             getutxos_outp address tx acc outp =
             (new <~ getutxos_outp address tx [] outp ;; Ok (acc ++ new)%list)).
  { intros acc outp; unfold Bitaps.getutxos_outp.
    destruct (tx.["vOut"]) as [vout|]; simpl; [|reflexivity].
    destruct (PurePy.getitem vout outp) as [utxo|]; simpl; [|reflexivity].
    destruct (Bitaps.skip_output address utxo) as [[|]|]; simpl;
      [rewrite app_nil_r; reflexivity| |reflexivity].
    destruct (Bitaps.utxo_dict _ _ tx outp utxo); reflexivity. }
  induction outps as [|outp outps IH]; intros utxos; simpl.
  - rewrite app_nil_r; reflexivity.
  - rewrite (body utxos outp).
    destruct (getutxos_outp address tx [] outp) as [new|]; simpl; [|reflexivity].
    rewrite (IH (utxos ++ new)%list), (IH new).
    destruct (for_each (getutxos_outp address tx) [] outps); simpl; [|reflexivity].
    rewrite app_assoc; reflexivity.
Qed.

Lemma getutxos_tx_step (address after_txid : string) (utxos : list utxo_rec) (tx : json) :
  Bitaps.getutxos_tx fromtimestamp int_of_str address after_txid utxos tx
  = SyncDriver.step (tx_utxos address) Instances.hash_field after_txid utxos tx.
Proof.
  unfold Bitaps.getutxos_tx, SyncDriver.step, Instances.tx_utxos,
    Instances.hash_field.
  destruct (tx.["vOut"]) as [vout|]; simpl; [|reflexivity].
  destruct (PurePy.iter vout) as [outps|]; simpl; [|reflexivity].
  rewrite getutxos_outp_append.
  destruct (for_each (getutxos_outp address tx) [] outps); reflexivity.
Qed.

Lemma gettransactions_loop_fetch (fuel : nat) (address after_txid : string) :
  forall (page : Z) (txs : list Transaction) (log : list request_rec),
    Bitaps.gettransactions_loop request self_network import_raw fromtimestamp
      fuel address after_txid page txs log
    = SyncDriver.fetch request tx_records Instances.txId
        fuel address after_txid page txs log.
Proof.
  induction fuel as [|fuel IH]; intros page txs log; [reflexivity|].
  cbn [Bitaps.gettransactions_loop SyncDriver.fetch].
  unfold bind, lift.
  destruct (Bitaps.compose_request _ _ _ _ _ _ log) as [[res|] log'];
    [|reflexivity].
  destruct (res.["data"]) as [data|]; [|reflexivity].
  destruct (data.["list"]) as [l|]; [|reflexivity].
  destruct (PurePy.iter l) as [items|]; [|reflexivity].
  rewrite (for_each_ext _ (SyncDriver.step tx_records Instances.txId after_txid))
    by (intros; apply gettransactions_tx_step).
  destruct (for_each _ txs items) as [txs'|]; [|reflexivity].
  destruct (data.["pages"]) as [pages|]; [|reflexivity].
  destruct (PurePy.int_gt (page + 1) pages) as [[|]|]; try reflexivity.
  apply IH.
Qed.

Lemma getutxos_loop_fetch (fuel : nat) (address after_txid : string) :
  forall (page : Z) (utxos : list utxo_rec) (log : list request_rec),
    Bitaps.getutxos_loop request fromtimestamp int_of_str
      fuel address after_txid utxos page log
    = SyncDriver.fetch request (tx_utxos address) Instances.hash_field
        fuel address after_txid page utxos log.
Proof.
  induction fuel as [|fuel IH]; intros page utxos log; [reflexivity|].
  cbn [Bitaps.getutxos_loop SyncDriver.fetch].
  unfold bind, lift.
  destruct (Bitaps.compose_request _ _ _ _ _ _ log) as [[res|] log'];
    [|reflexivity].
  destruct (res.["data"]) as [data|]; [|reflexivity].
  destruct (data.["list"]) as [l|]; [|reflexivity].
  destruct (PurePy.iter l) as [items|]; [|reflexivity].
  rewrite (for_each_ext _
             (SyncDriver.step (tx_utxos address) Instances.hash_field after_txid))
    by (intros; apply getutxos_tx_step).
  destruct (for_each _ utxos items) as [utxos'|]; [|reflexivity].
  destruct (data.["pages"]) as [pages|]; [|reflexivity].
  destruct (PurePy.int_gt (page + 1) pages) as [[|]|]; try reflexivity.
  apply IH.
Qed.

(** [gettransactions] is the driver started at page 0 that reads the
    item's [txId]. *)
Lemma gettransactions_sync_fetch (fuel : nat) (address after_txid : string)
      (max_txs : Z) (log : list request_rec) :
  Bitaps.gettransactions request self_network import_raw fromtimestamp
    fuel address after_txid max_txs log
  = SyncDriver.sync_fetch request tx_records Instances.txId 0
      fuel address after_txid max_txs log.
Proof.
  unfold Bitaps.gettransactions, SyncDriver.sync_fetch, bind.
  rewrite gettransactions_loop_fetch; reflexivity.
Qed.

(** [getutxos] is the driver started at page 1 that reads the item's
    [hash]. *)
Lemma getutxos_sync_fetch (fuel : nat) (address after_txid : string)
      (max_txs : Z) (log : list request_rec) :
  Bitaps.getutxos request fromtimestamp int_of_str
    fuel address after_txid max_txs log
  = SyncDriver.sync_fetch request (tx_utxos address) Instances.hash_field 1
      fuel address after_txid max_txs log.
Proof.
  unfold Bitaps.getutxos, SyncDriver.sync_fetch, bind.
  rewrite getutxos_loop_fetch; reflexivity.
Qed.

End Loops.

Section DriverRuns.

Variable request : string -> option variables -> result json.
Context {A : Type}.
Variable transform : json -> result (list A).
Variable item_id : json -> result json.

(** A run of the driver against a served history of well-formed items:
    the records after the last occurrence of the cursor, cut to the cap,
    and one request per page of the history whatever the cursor is. *)
Lemma sync_fetch_served (first_page : Z) (address cursor : string) (max_results : Z)
      (hist : list (list json * Z)) (fuel : nat) (log : list request_rec) :
  SyncDriver.served request address first_page hist ->
  (List.length hist <= fuel)%nat ->
  forallb (SyncDriver.well_formed transform item_id)
          (List.concat (map fst hist)) = true ->
  SyncDriver.sync_fetch request transform item_id first_page
    fuel address cursor max_results log
  = (Ok (PurePy.slice_to
           (SyncDriver.newer cursor []
              (map (SyncDriver.keyed transform item_id)
                   (List.concat (map fst hist))))
           max_results),
     (log ++ map (SyncDriver.history_request address)
                 (SyncDriver.page_range first_page (List.length hist)))%list).
Proof.
  intros Hs Hf Hw.
  unfold SyncDriver.sync_fetch, bind.
  rewrite (fetch_served request transform item_id address cursor hist
             first_page [] _ log fuel Hs Hf
             (for_each_step_newer transform item_id cursor _ [] Hw)).
  reflexivity.
Qed.

(** The cap is applied to what the loop collected. *)
Lemma sync_fetch_slice (first_page : Z) (address cursor : string) (max_results : Z)
      (fuel : nat) (log : list request_rec) :
  fst (SyncDriver.sync_fetch request transform item_id first_page
         fuel address cursor max_results log)
  = (collected <~ fst (SyncDriver.fetch request transform item_id
                         fuel address cursor first_page [] log) ;;
     Ok (PurePy.slice_to collected max_results)).
Proof.
  unfold SyncDriver.sync_fetch, bind, ret.
  destruct (SyncDriver.fetch _ _ _ _ _ _ _ _ log) as [[c|e] log']; reflexivity.
Qed.

End DriverRuns.

(** ** The fetch loops against a served history *)

Section Fetch.

Variable request : string -> option variables -> result json.
Variable self_network : Network.
Variable import_raw : json -> Network -> result Transaction.
Variable fromtimestamp : json -> result datetime.
Variable int_of_str : string -> result Z.

Abbreviation gettransactions :=
  (Bitaps.gettransactions request self_network import_raw fromtimestamp).
Abbreviation getutxos := (Bitaps.getutxos request fromtimestamp int_of_str).
Abbreviation tx_records := (Instances.tx_records self_network import_raw fromtimestamp).
Abbreviation tx_utxos := (Instances.tx_utxos fromtimestamp int_of_str).

(** [gettransactions] returns the transactions of the items after the
    last one whose [txId] is the cursor, over pages 0, 1, ... of the
    history, cut to the cap. *)
Lemma gettransactions_served (address after_txid : string) (max_txs : Z)
      (hist : list (list json * Z)) (fuel : nat) :
  SyncDriver.served request address 0 hist ->
  (List.length hist <= fuel)%nat ->
  forallb (SyncDriver.well_formed tx_records Instances.txId)
          (List.concat (map fst hist)) = true ->
  run (gettransactions fuel address after_txid max_txs)
  = (Ok (PurePy.slice_to
           (SyncDriver.newer after_txid []
              (map (SyncDriver.keyed tx_records Instances.txId)
                   (List.concat (map fst hist))))
           max_txs),
     map (SyncDriver.history_request address)
         (SyncDriver.page_range 0 (List.length hist))).
Proof.
  intros Hs Hf Hw; unfold run.
  rewrite gettransactions_sync_fetch.
  rewrite (sync_fetch_served request _ _ 0 address after_txid max_txs hist fuel []
             Hs Hf Hw).
  reflexivity.
Qed.

(** [getutxos] returns the unspent outputs of the items after the last
    one whose [hash] is the cursor, over pages 1, 2, ... of the history,
    cut to the cap. *)
Lemma getutxos_served (address after_txid : string) (max_txs : Z)
      (hist : list (list json * Z)) (fuel : nat) :
  SyncDriver.served request address 1 hist ->
  (List.length hist <= fuel)%nat ->
  forallb (SyncDriver.well_formed (tx_utxos address) Instances.hash_field)
          (List.concat (map fst hist)) = true ->
  run (getutxos fuel address after_txid max_txs)
  = (Ok (PurePy.slice_to
           (SyncDriver.newer after_txid []
              (map (SyncDriver.keyed (tx_utxos address) Instances.hash_field)
                   (List.concat (map fst hist))))
           max_txs),
     map (SyncDriver.history_request address)
         (SyncDriver.page_range 1 (List.length hist))).
Proof.
  intros Hs Hf Hw; unfold run.
  rewrite getutxos_sync_fetch.
  rewrite (sync_fetch_served request _ _ 1 address after_txid max_txs hist fuel []
             Hs Hf Hw).
  reflexivity.
Qed.

(** C2, as amended.  Reaching the cursor does not end the fetch.
    Against every served history [gettransactions] requests the pages in
    order from page 0 and [getutxos] from page 1, up to the page count
    the provider announces, or, when an item makes the body of the loop
    raise, up to and including the page of the first such item, where the
    call ends with the exception; which pages are requested does not
    depend on the cursor.  A match only empties what was collected: when
    no item raises, every page is requested and the call returns the
    records of the items after the last match, cut to the cap. *)
Theorem fetch_requests_every_page (address after_txid : string) (max_txs : Z)
        (hist0 hist1 : list (list json * Z)) (fuel : nat) :
  (SyncDriver.served request address 0 hist0 ->
   (List.length hist0 <= fuel)%nat ->
   trace (gettransactions fuel address after_txid max_txs)
   = map (SyncDriver.history_request address)
         (SyncDriver.page_range 0
            (SyncDriver.requested_pages
               (SyncDriver.well_formed tx_records Instances.txId) hist0))
   /\ SyncDriver.is_ok (value (gettransactions fuel address after_txid max_txs))
      = forallb (SyncDriver.well_formed tx_records Instances.txId)
                (List.concat (map fst hist0))
   /\ (forallb (SyncDriver.well_formed tx_records Instances.txId)
               (List.concat (map fst hist0)) = true ->
       SyncDriver.requested_pages
         (SyncDriver.well_formed tx_records Instances.txId) hist0
       = List.length hist0 /\
       value (gettransactions fuel address after_txid max_txs)
       = Ok (PurePy.slice_to
               (SyncDriver.newer after_txid []
                  (map (SyncDriver.keyed tx_records Instances.txId)
                       (List.concat (map fst hist0))))
               max_txs)))
  /\
  (SyncDriver.served request address 1 hist1 ->
   (List.length hist1 <= fuel)%nat ->
   trace (getutxos fuel address after_txid max_txs)
   = map (SyncDriver.history_request address)
         (SyncDriver.page_range 1
            (SyncDriver.requested_pages
               (SyncDriver.well_formed (tx_utxos address) Instances.hash_field)
               hist1))
   /\ SyncDriver.is_ok (value (getutxos fuel address after_txid max_txs))
      = forallb (SyncDriver.well_formed (tx_utxos address) Instances.hash_field)
                (List.concat (map fst hist1))
   /\ (forallb (SyncDriver.well_formed (tx_utxos address) Instances.hash_field)
               (List.concat (map fst hist1)) = true ->
       SyncDriver.requested_pages
         (SyncDriver.well_formed (tx_utxos address) Instances.hash_field) hist1
       = List.length hist1 /\
       value (getutxos fuel address after_txid max_txs)
       = Ok (PurePy.slice_to
               (SyncDriver.newer after_txid []
                  (map (SyncDriver.keyed (tx_utxos address) Instances.hash_field)
                       (List.concat (map fst hist1))))
               max_txs))).
Proof.
  split; intros Hs Hf; unfold trace, value, run.
  - rewrite gettransactions_sync_fetch.
    exact (sync_fetch_served_run request tx_records Instances.txId 0 address
             after_txid max_txs hist0 fuel Hs Hf).
  - rewrite getutxos_sync_fetch.
    exact (sync_fetch_served_run request (tx_utxos address) Instances.hash_field 1
             address after_txid max_txs hist1 fuel Hs Hf).
Qed.


End Fetch.

(** ** The fetch loops on the example histories *)

Module FetchExamples.
Import Fixture.

Lemma two_pages_served_from_0 :
  SyncDriver.served (paged_provider two_pages) "addr" 0 (served_from_0 two_pages).
Proof.
  cbn [served_from_0 two_pages map SyncDriver.served List.length].
  repeat split; try lia; vm_compute; reflexivity.
Qed.

Lemma two_pages_served_from_1 :
  SyncDriver.served (paged_provider two_pages) "addr" 1 (served_from_1 two_pages).
Proof.
  cbn [served_from_1 two_pages map SyncDriver.served List.length].
  repeat split; try lia; vm_compute; reflexivity.
Qed.

(** On pages [[A;B]; [C;D]] with cursor [B], [gettransactions] returns
    exactly the transactions [C; D]. *)
Example gettransactions_after_B :
  exists txs, value (gettransactions two_pages 3 "addr" "B" 100) = Ok txs /\
              map hash txs = [JStr "C"; JStr "D"].
Proof. eexists; split; vm_compute; reflexivity. Qed.

(** C1, the defect.  [getutxos] compares the cursor with the item's
    [hash] and not with its id, the [txId] it reports as [tx_hash]: on
    pages [[A;B]; [C;D]] where [B]'s hash differs from its id, the call
    with cursor [B] returns the outputs of [A; B; C; D] instead of those
    of [C; D]. *)
Theorem getutxos_cursor_reads_hash :
  exists utxos, value (getutxos segwit_pages 2 "addr" "B" 100) = Ok utxos /\
                map u_tx_hash utxos = [JStr "A"; JStr "B"; JStr "C"; JStr "D"].
Proof. eexists; split; vm_compute; reflexivity. Qed.

(** C2, the counterexample.  The cursor item [A] is on page 1 of the
    history, and both [gettransactions] and [getutxos] still request
    page 2. *)
Theorem fetch_goes_past_cursor :
  ~ SyncDriver.stops_at_cursor (paged_provider two_pages) "addr" "A"
      (trace (gettransactions two_pages 3 "addr" "A" 100))
  /\ ~ SyncDriver.stops_at_cursor (paged_provider two_pages) "addr" "A"
         (trace (getutxos two_pages 3 "addr" "A" 100)).
Proof.
  split; intros H;
    specialize (H 1 [plain "A"; plain "B"] (JInt 2) (plain "A")
                  eq_refl (or_introl eq_refl) eq_refl
                  (SyncDriver.history_request "addr" 2) 2);
    (assert (C : 2 <= 1); [|lia]);
    (apply H; [vm_compute; auto|reflexivity]).
Qed.

Lemma raising_pages_served_from_1 :
  SyncDriver.served (paged_provider raising_pages) "addr" 1 (served_from_1 raising_pages).
Proof.
  cbn [served_from_1 raising_pages map SyncDriver.served List.length].
  repeat split; try lia; vm_compute; reflexivity.
Qed.

Lemma fetch_requests_every_page_witness :
  trace (gettransactions two_pages 3 "addr" "A" 100)
  = map (SyncDriver.history_request "addr") [0; 1; 2]
  /\ trace (getutxos two_pages 3 "addr" "A" 100)
     = map (SyncDriver.history_request "addr") [1; 2]
  /\ trace (getutxos raising_pages 3 "addr" "A" 100)
     = map (SyncDriver.history_request "addr") [1].
Proof.
  destruct (fetch_requests_every_page (paged_provider two_pages) "bitcoin"
              Fixture.import_raw Fixture.fromtimestamp Fixture.int_of_str
              "addr" "A" 100 (served_from_0 two_pages) (served_from_1 two_pages) 3)
    as [T U].
  destruct (fetch_requests_every_page (paged_provider raising_pages) "bitcoin"
              Fixture.import_raw Fixture.fromtimestamp Fixture.int_of_str
              "addr" "A" 100 (served_from_0 raising_pages)
              (served_from_1 raising_pages) 3)
    as [_ R].
  split; [|split].
  - apply (proj1 (T two_pages_served_from_0 (le_n 3))).
  - apply (proj1 (U two_pages_served_from_1 (le_S 2 2 (le_n 2)))).
  - apply (proj1 (R raising_pages_served_from_1 (le_S 2 2 (le_n 2)))).
Defined.

(** On a history whose first page holds an item with no block
    [gettransactions] requests pages 0, 1 and 2 and returns, while
    [getutxos] raises on page 1 and does not request page 2; with the
    cursor [A], of an item of page 1, the requests are the same. *)
Example fetch_up_to_raising_item :
  trace (gettransactions raising_pages 3 "addr" "" 100)
  = map (SyncDriver.history_request "addr") [0; 1; 2]
  /\ SyncDriver.is_ok (value (gettransactions raising_pages 3 "addr" "" 100)) = true
  /\ trace (getutxos raising_pages 3 "addr" "" 100)
     = map (SyncDriver.history_request "addr") [1]
  /\ value (getutxos raising_pages 3 "addr" "" 100) = Raise KeyError
  /\ trace (gettransactions raising_pages 3 "addr" "A" 100)
     = trace (gettransactions raising_pages 3 "addr" "" 100)
  /\ trace (getutxos raising_pages 3 "addr" "A" 100)
     = trace (getutxos raising_pages 3 "addr" "" 100).
Proof. repeat split; vm_compute; reflexivity. Qed.


(** C3, the defect.  The two loops are not mirrored: on the same history
    [gettransactions] starts at page 0 and [getutxos] at page 1, and with
    the cursor [B] of an item whose [hash] differs from its [txId] the
    first discards up to [B] while the second discards nothing. *)
Theorem fetch_loops_not_mirrored :
  map (fun r => Bitaps.page_number (req_variables r))
      (trace (gettransactions segwit_pages 3 "addr" "B" 100))
  = [Some 0; Some 1; Some 2]
  /\ map (fun r => Bitaps.page_number (req_variables r))
         (trace (getutxos segwit_pages 3 "addr" "B" 100))
     = [Some 1; Some 2]
  /\ (exists txs, value (gettransactions segwit_pages 3 "addr" "B" 100) = Ok txs /\
                  map hash txs = [JStr "C"; JStr "D"])
  /\ (exists utxos, value (getutxos segwit_pages 3 "addr" "B" 100) = Ok utxos /\
                    map u_tx_hash utxos = [JStr "A"; JStr "B"; JStr "C"; JStr "D"]).
Proof.
  repeat split; try (vm_compute; reflexivity);
    eexists; split; vm_compute; reflexivity.
Qed.


(** With a cap of 10 on a history of 25 new transactions, the call
    returns the first 10 in order. *)
Example gettransactions_first_10_of_25 :
  exists full txs,
    value (gettransactions busy_page 2 "addr" "" 100) = Ok full /\
    List.length full = 25%nat /\
    value (gettransactions busy_page 2 "addr" "" 10) = Ok txs /\
    txs = firstn 10 full /\
    map hash txs = map (fun n => JStr (PurePy.str_of_int n)) (SyncDriver.page_range 1 10).
Proof.
  eexists; eexists; repeat split; vm_compute; reflexivity.
Qed.

End FetchExamples.

(** ** The transaction parser *)

(** Splits a successful run of a sequence of fallible steps into the
    results of its steps. *)
Ltac bind_inv H :=
  repeat match type of H with
         | rbind ?r _ = Ok _ =>
             let E := fresh "E" in
             destruct r eqn:E; cbn [rbind] in H; [|discriminate H]
         end.

Section Parser.

Variable self_network : Network.
Variable import_raw : json -> Network -> result Transaction.
Variable fromtimestamp : json -> result datetime.

Abbreviation _parse_transaction :=
  (Bitaps._parse_transaction self_network import_raw fromtimestamp).

Lemma for_update_Forall2 {A} (f : A -> result A) (xs ys : list A) :
  Bitaps.for_update f xs = Ok ys -> Forall2 (fun x y => f x = Ok y) xs ys.
Proof.
  revert ys; induction xs as [|x xs IH]; intros ys H; simpl in H.
  - injection H as <-; constructor.
  - bind_inv H; injection H as <-; constructor; auto.
Qed.

(** The steps of a successful parse, named. *)
Lemma parse_steps (tx : json) (t : Transaction) :
  _parse_transaction tx = Ok t ->
  exists raw t0 c fee' oa,
    tx.["rawTx"] = Ok raw /\ import_raw raw self_network = Ok t0 /\
    tx.["confirmations"] = Ok c /\ tx.["fee"] = Ok fee' /\
    tx.["outputsAmount"] = Ok oa /\
    status t = (if PurePy.truthy c then "confirmed" else "unconfirmed") /\
    tx.["txId"] = Ok (hash t) /\
    confirmations t = c /\ fee t = fee' /\ output_total t = oa /\
    coinbase t = coinbase t0 /\
    (forall has, PurePy.contains "blockHeight" tx = Ok has ->
                 if has
                 then tx.["blockHeight"] = Ok (block_height t) /\
                      tx.["blockHash"] = Ok (block_hash t)
                 else block_height t = block_height t0 /\
                      block_hash t = block_hash t0) /\
    (if coinbase t0
     then PurePy.sub oa fee' = Ok (input_total t) /\ inputs t = inputs t0
     else tx.["inputsAmount"] = Ok (input_total t) /\
          Bitaps.for_update (Bitaps.set_input_value tx) (inputs t0) = Ok (inputs t)).
Proof.
  unfold Bitaps._parse_transaction; intros H.
  bind_inv H.
  match goal with
  | E : import_raw ?raw _ = Ok ?t0, Ec : tx.["confirmations"] = Ok ?c,
    Ef : tx.["fee"] = Ok ?f, Eo : tx.["outputsAmount"] = Ok ?oa |- _ =>
      exists raw, t0, c, f, oa
  end.
  injection H as <-; cbn.
  repeat split; try assumption; try reflexivity.
  - intros has Hh; injection Hh as <-.
    match goal with
    | E : (if ?b then _ else _) = Ok ?p |- context [if ?b then _ else _] =>
        destruct b; [bind_inv E|]; injection E as <-; cbn; split; reflexivity
    end.
  - match goal with
    | E : (if coinbase ?t0 then _ else _) = Ok _,
      E' : (if negb (coinbase ?t0) then _ else _) = Ok _ |- _ =>
        destruct (coinbase t0); cbn in E, E'; split; congruence
    end.
Qed.

End Parser.

Lemma set_input_value_spec (tx : json) (i0 i : Input) :
  Bitaps.set_input_value tx i0 = Ok i ->
  index_n i = index_n i0 /\
  exists vin e, tx.["vIn"] = Ok vin /\
                vin.[PurePy.str_of_int (index_n i0)] = Ok e /\
                e.["amount"] = Ok (in_value i).
Proof.
  unfold Bitaps.set_input_value; intros H; bind_inv H.
  injection H as <-; cbn; split; [reflexivity|].
  do 2 eexists; repeat split; eassumption.
Qed.

(** C4, as amended.  A parsed item carries a [confirmations] entry, and
    the record's status is ["unconfirmed"] when that count is null or 0
    (a false truth value) and ["confirmed"] otherwise.  Block height and block
    hash are taken from the item when it has a [blockHeight] key and are
    left as decoded when it has none.  The status is a function of the
    item alone: whatever the codec decoded, and whatever status the
    decoded transaction had, the same item gets the same status. *)
Theorem parse_status_derivation
        (self_network : Network)
        (import_raw : json -> Network -> result Transaction)
        (fromtimestamp : json -> result datetime)
        (tx : json) (t : Transaction) :
  Bitaps._parse_transaction self_network import_raw fromtimestamp tx = Ok t ->
  (exists c, tx.["confirmations"] = Ok c /\
             (PurePy.truthy c = false -> status t = "unconfirmed") /\
             (PurePy.truthy c = true -> status t = "confirmed")) /\
  (forall has, PurePy.contains "blockHeight" tx = Ok has ->
     if has
     then tx.["blockHeight"] = Ok (block_height t) /\
          tx.["blockHash"] = Ok (block_hash t)
     else exists raw t0,
          tx.["rawTx"] = Ok raw /\ import_raw raw self_network = Ok t0 /\
          block_height t = block_height t0 /\ block_hash t = block_hash t0) /\
  (forall self_network' import_raw' fromtimestamp' t',
     Bitaps._parse_transaction self_network' import_raw' fromtimestamp' tx = Ok t' ->
     status t' = status t).
Proof.
  intros H.
  destruct (parse_steps _ _ _ _ _ H)
    as (raw & t0 & c & fee' & oa & Hraw & Ht0 & Hc & _ & _ & Hst & _ & _ & _ & _ & _ & Hb & _).
  repeat split.
  - exists c; repeat split; [assumption| |]; intros Hv; rewrite Hst, Hv; reflexivity.
  - intros has Hh; specialize (Hb has Hh); destruct has; [assumption|].
    exists raw, t0; tauto.
  - intros net' imp' fts' t' H'.
    destruct (parse_steps _ _ _ _ _ H')
      as (_ & _ & c' & _ & _ & _ & _ & Hc' & _ & _ & Hst' & _).
    assert (c' = c) by congruence; subst c'.
    rewrite Hst', Hst; reflexivity.
Qed.

(** C5.  For a coinbase transaction the record's [input_total] is the
    item's [outputsAmount] minus its [fee], and the inputs are left as
    decoded, no amount being looked up; for any other transaction
    [input_total] is the item's [inputsAmount], and each input keeps its
    index and gets as value the [amount] listed in [vIn] under its
    index. *)
Theorem parse_input_total
        (self_network : Network)
        (import_raw : json -> Network -> result Transaction)
        (fromtimestamp : json -> result datetime)
        (tx : json) (t : Transaction) :
  Bitaps._parse_transaction self_network import_raw fromtimestamp tx = Ok t ->
  exists raw t0 fee' oa,
    tx.["rawTx"] = Ok raw /\ import_raw raw self_network = Ok t0 /\
    tx.["fee"] = Ok fee' /\ tx.["outputsAmount"] = Ok oa /\
    coinbase t = coinbase t0 /\
    (coinbase t0 = true ->
     PurePy.sub oa fee' = Ok (input_total t) /\
     (forall o f, oa = JInt o -> fee' = JInt f -> input_total t = JInt (o - f)) /\
     inputs t = inputs t0) /\
    (coinbase t0 = false ->
     tx.["inputsAmount"] = Ok (input_total t) /\
     Forall2 (fun i0 i =>
                index_n i = index_n i0 /\
                exists vin e, tx.["vIn"] = Ok vin /\
                              vin.[PurePy.str_of_int (index_n i0)] = Ok e /\
                              e.["amount"] = Ok (in_value i))
             (inputs t0) (inputs t)).
Proof.
  intros H.
  destruct (parse_steps _ _ _ _ _ H)
    as (raw & t0 & c & fee' & oa & Hraw & Ht0 & _ & Hfee & Hoa & _ & _ & _ & _ & _ & Hcb & _ & Hin).
  exists raw, t0, fee', oa.
  split; [assumption|]. split; [assumption|]. split; [assumption|].
  split; [assumption|]. split; [assumption|].
  split; intros Hc; rewrite Hc in Hin; destruct Hin as [Htot Hins].
  - split; [assumption|]. split; [|assumption].
    intros o f -> ->; cbn in Htot; congruence.
  - split; [assumption|].
    apply for_update_Forall2 in Hins.
    induction Hins; constructor; auto using set_input_value_spec.
Qed.

Module ParserExamples.
Import Fixture.

Lemma parse_status_derivation_witness :
  _parse_transaction unconfirmed_item = Ok parsed_unconfirmed /\
  exists c, unconfirmed_item.["confirmations"] = Ok c /\
            (PurePy.truthy c = false -> status parsed_unconfirmed = "unconfirmed") /\
            (PurePy.truthy c = true -> status parsed_unconfirmed = "confirmed").
Proof.
  split; [reflexivity|].
  apply (parse_status_derivation "bitcoin" Fixture.import_raw Fixture.fromtimestamp
           unconfirmed_item parsed_unconfirmed).
  reflexivity.
Defined.

(** C4, the counterexample.  The status does not go by the presence of
    a confirmation count: an item that carries the count 0 is parsed to
    an unconfirmed transaction. *)
Theorem status_not_by_presence :
  ~ (forall tx t, _parse_transaction tx = Ok t ->
                  status t = Instances.status_by_presence tx).
Proof.
  intros H; specialize (H unconfirmed_item parsed_unconfirmed eq_refl).
  vm_compute in H; discriminate H.
Qed.

(** An item with 0 confirmations and no block is parsed to an
    unconfirmed transaction with no block height; one with 3
    confirmations in block 100 to a confirmed one at that height. *)
Example status_of_mempool_and_mined_items :
  status parsed_unconfirmed = "unconfirmed" /\
  block_height parsed_unconfirmed = JNull /\
  exists t, _parse_transaction (plain "A") = Ok t /\
            status t = "confirmed" /\ block_height t = JInt 100 /\
            block_hash t = JStr "00ab".
Proof.
  repeat split; eexists; repeat split; vm_compute; reflexivity.
Qed.

(** An item with no [confirmations] key is refused. *)
Example parse_without_confirmations :
  _parse_transaction (JDict [("txId", JStr "X"); ("rawTx", JStr "tx")])
  = Raise KeyError.
Proof. reflexivity. Qed.

Lemma parse_input_total_witness :
  _parse_transaction coinbase_item = Ok parsed_coinbase /\
  exists raw t0 fee' oa,
    coinbase_item.["rawTx"] = Ok raw /\
    Fixture.import_raw raw "bitcoin" = Ok t0 /\
    coinbase_item.["fee"] = Ok fee' /\ coinbase_item.["outputsAmount"] = Ok oa /\
    coinbase parsed_coinbase = coinbase t0 /\
    (coinbase t0 = true ->
     PurePy.sub oa fee' = Ok (input_total parsed_coinbase) /\
     (forall o f, oa = JInt o -> fee' = JInt f ->
                  input_total parsed_coinbase = JInt (o - f)) /\
     inputs parsed_coinbase = inputs t0) /\
    (coinbase t0 = false ->
     coinbase_item.["inputsAmount"] = Ok (input_total parsed_coinbase) /\
     Forall2 (fun i0 i =>
                index_n i = index_n i0 /\
                exists vin e, coinbase_item.["vIn"] = Ok vin /\
                              vin.[PurePy.str_of_int (index_n i0)] = Ok e /\
                              e.["amount"] = Ok (in_value i))
             (inputs t0) (inputs parsed_coinbase)).
Proof.
  split; [reflexivity|].
  apply (parse_input_total "bitcoin" Fixture.import_raw Fixture.fromtimestamp
           coinbase_item parsed_coinbase).
  reflexivity.
Defined.

(** A coinbase item with an output total of 50 and a fee of 0, listing
    no inputs, is parsed to a record whose input total is 50; an
    ordinary item gets the input total and the input amount the provider
    lists. *)
Example coinbase_input_total_50 :
  coinbase parsed_coinbase = true /\
  output_total parsed_coinbase = JInt 50 /\ fee parsed_coinbase = JInt 0 /\
  input_total parsed_coinbase = JInt 50 /\
  PurePy.contains "vIn" coinbase_item = Ok false /\
  exists t, _parse_transaction (plain "A") = Ok t /\
            coinbase t = false /\ input_total t = JInt 1010 /\
            inputs t = [mkInput 0 (JInt 1010)].
Proof.
  repeat split; eexists; repeat split; vm_compute; reflexivity.
Qed.

End ParserExamples.

(** ** The records of [getutxos] *)

Section DriverInvariant.

Variable request : string -> option variables -> result json.
Context {A : Type}.
Variable transform : json -> result (list A).
Variable item_id : json -> result json.
Variable address : string.
Variable Q : A -> Prop.

Hypothesis transform_Q :
  forall item new,
    SyncDriver.listed request address item -> transform item = Ok new ->
    Forall Q new.

(** What holds of every record an item gives holds of every record the
    loop returns. *)
Lemma fetch_Forall (cursor : string) (fuel : nat) :
  forall (page : Z) (acc r : list A) (log log' : list request_rec),
    SyncDriver.fetch request transform item_id fuel address cursor page acc log
    = (Ok r, log') ->
    Forall Q acc -> Forall Q r.
Proof.
  induction fuel as [|fuel IH]; intros page acc r log log' H Hacc;
    [discriminate|].
  cbn [SyncDriver.fetch] in H; rewrite compose_request_history in H.
  unfold bind, lift, Bitaps.self_request in H.
  destruct (request _ _) as [res|] eqn:Eres; [|discriminate].
  destruct (res.["data"]) as [data|] eqn:Edata; [|discriminate].
  destruct (data.["list"]) as [l|] eqn:El; [|discriminate].
  destruct (PurePy.iter l) as [items|] eqn:Eit; [|discriminate].
  destruct (for_each _ acc items) as [acc'|] eqn:Efor; [|discriminate].
  destruct (data.["pages"]) as [pages|] eqn:Epg; [|discriminate].
  assert (Hpage : SyncDriver.page_of request address page = Ok (items, pages)).
  { unfold SyncDriver.page_of.
    rewrite Eres; cbn [rbind]; rewrite Edata; cbn [rbind]; rewrite El; cbn [rbind].
    rewrite Eit; cbn [rbind]; rewrite Epg; reflexivity. }
  assert (Hacc' : Forall Q acc').
  { refine (for_each_invariant _ (Forall Q) items acc acc' _ Hacc Efor).
    intros a x a' Hx Ha Hstep; unfold SyncDriver.step in Hstep.
    destruct (transform x) as [new|] eqn:Et; [|discriminate].
    destruct (item_id x) as [k|]; [|discriminate]; cbn in Hstep.
    destruct (PurePy.eq_str k cursor); injection Hstep as <-; [constructor|].
    apply Forall_app; split; [assumption|].
    apply (transform_Q x); [|assumption].
    exists page, items, pages; auto. }
  destruct (PurePy.int_gt (page + 1) pages) as [[|]|]; [| |discriminate].
  - injection H as <- _; assumption.
  - apply (IH _ _ _ _ _ H Hacc').
Qed.

End DriverInvariant.

Section Utxos.

Variable request : string -> option variables -> result json.
Variable fromtimestamp : json -> result datetime.
Variable int_of_str : string -> result Z.

Abbreviation getutxos := (Bitaps.getutxos request fromtimestamp int_of_str).

Lemma skip_output_false (address : string) (utxo : json) :
  Bitaps.skip_output address utxo = Ok false ->
  PurePy.contains "address" utxo = Ok true /\
  utxo.["address"] = Ok (JStr address) /\
  exists s, utxo.["spent"] = Ok s /\ PurePy.truthy s = false.
Proof.
  unfold Bitaps.skip_output; intros H.
  destruct (PurePy.contains "address" utxo) as [[|]|]; cbn in H;
    try discriminate.
  destruct (utxo.["address"]) as [a|]; cbn in H; [|discriminate].
  destruct (PurePy.eq_str a address) eqn:Ea; cbn in H; [|discriminate].
  apply eq_str_true in Ea; subst a.
  destruct (utxo.["spent"]) as [s|]; cbn in H; [|discriminate].
  injection H as H; repeat split; eauto.
Qed.

(** Every record the call returns was built from an unspent output of
    the queried address in a listed item. *)
Lemma getutxos_records (fuel : nat) (address after_txid : string) (max_txs : Z)
      (utxos : list utxo_rec) :
  value (getutxos fuel address after_txid max_txs) = Ok utxos ->
  Forall (Instances.unspent_output_of fromtimestamp int_of_str request address) utxos.
Proof.
  unfold value, run; rewrite getutxos_sync_fetch.
  unfold SyncDriver.sync_fetch, bind, ret.
  destruct (SyncDriver.fetch _ _ _ _ _ _ _ _ _) as [[full|] log'] eqn:E;
    cbn; [|discriminate].
  intros H; injection H as <-.
  assert (F : Forall (Instances.unspent_output_of fromtimestamp int_of_str
                        request address) full).
  { refine (fetch_Forall request _ _ address _ _ after_txid fuel 1 [] full [] log' E
              (Forall_nil _)).
    intros tx new Hl Ht; unfold Instances.tx_utxos in Ht.
    destruct (tx.["vOut"]) as [vout|] eqn:Ev; cbn in Ht; [|discriminate].
    destruct (PurePy.iter vout) as [outps|]; cbn in Ht; [|discriminate].
    refine (for_each_invariant _ (Forall _) outps [] new _ (Forall_nil _) Ht).
    intros a outp a' _ Ha Hb; unfold Bitaps.getutxos_outp in Hb.
    rewrite Ev in Hb; cbn in Hb.
    destruct (PurePy.getitem vout outp) as [utxo|] eqn:Eu; cbn in Hb; [|discriminate].
    destruct (Bitaps.skip_output address utxo) as [[|]|] eqn:Es; cbn in Hb;
      [injection Hb as <-; assumption| |discriminate].
    destruct (Bitaps.utxo_dict _ _ tx outp utxo) as [u|] eqn:Ed; cbn in Hb;
      [|discriminate].
    injection Hb as <-.
    apply Forall_app; split; [assumption|].
    constructor; [|constructor].
    destruct (skip_output_false _ _ Es) as (Hc & Hadr & Hsp).
    exists tx, outp, vout, utxo; auto 10. }
  rewrite Forall_forall in *; intros u Hu; apply F.
  apply (slice_to_In _ _ _ Hu).
Qed.

Lemma utxo_dict_fields (tx outp utxo : json) (u : utxo_rec) :
  Bitaps.utxo_dict fromtimestamp int_of_str tx outp utxo = Ok u ->
  utxo.["address"] = Ok (u_address u) /\ tx.["txId"] = Ok (u_tx_hash u) /\
  u_input_n u = 0 /\ u_fee u = JNull /\ u_size u = 0.
Proof.
  unfold Bitaps.utxo_dict; intros H; bind_inv H.
  injection H as <-; cbn; auto.
Qed.

(** C6.  Every record [getutxos] returns comes from an output of an item
    of the address's history that has an [address] key, whose address is
    the queried one and whose [spent] is false, and the record carries
    that address; so an output that is spent, has no address or has
    another address gives no record. *)
Theorem getutxos_only_unspent_of_address
        (fuel : nat) (address after_txid : string) (max_txs : Z)
        (utxos : list utxo_rec) (u : utxo_rec) :
  value (getutxos fuel address after_txid max_txs) = Ok utxos ->
  In u utxos ->
  u_address u = JStr address /\
  Instances.unspent_output_of fromtimestamp int_of_str request address u.
Proof.
  intros H Hu.
  pose proof (getutxos_records _ _ _ _ _ H) as F.
  rewrite Forall_forall in F; specialize (F u Hu).
  split; [|assumption].
  destruct F as (tx & outp & vout & utxo & _ & _ & _ & _ & Ha & _ & Hd).
  apply utxo_dict_fields in Hd; destruct Hd as (Ha' & _).
  congruence.
Qed.

(** C7.  Every record [getutxos] returns has [input_n] 0, [fee] [None]
    and [size] 0, whatever the item says of its transaction. *)
Theorem getutxos_no_transaction_accounting
        (fuel : nat) (address after_txid : string) (max_txs : Z)
        (utxos : list utxo_rec) (u : utxo_rec) :
  value (getutxos fuel address after_txid max_txs) = Ok utxos ->
  In u utxos ->
  u_input_n u = 0 /\ u_fee u = JNull /\ u_size u = 0.
Proof.
  intros H Hu.
  pose proof (getutxos_records _ _ _ _ _ H) as F.
  rewrite Forall_forall in F; specialize (F u Hu).
  destruct F as (tx & outp & vout & utxo & _ & _ & _ & _ & _ & _ & Hd).
  apply utxo_dict_fields in Hd; tauto.
Qed.

End Utxos.

Module UtxoExamples.
Import Fixture.

(** Of four items paying a spent output of the address, an output with
    no address, an output of another address and an unspent output of
    the address, only the last gives a record. *)
Example getutxos_mixed_page :
  value (getutxos mixed_page 1 "addr" "" 100) = Ok [utxo_P] /\
  u_tx_hash utxo_P = JStr "P".
Proof. split; vm_compute; reflexivity. Qed.

Lemma getutxos_only_unspent_of_address_witness :
  u_address utxo_P = JStr "addr" /\
  Instances.unspent_output_of Fixture.fromtimestamp Fixture.int_of_str
    (paged_provider mixed_page) "addr" utxo_P.
Proof.
  apply (getutxos_only_unspent_of_address (paged_provider mixed_page)
           Fixture.fromtimestamp Fixture.int_of_str 1 "addr" "" 100 [utxo_P] utxo_P).
  - vm_compute; reflexivity.
  - left; reflexivity.
Defined.

Lemma getutxos_no_transaction_accounting_witness :
  u_input_n utxo_P = 0 /\ u_fee utxo_P = JNull /\ u_size utxo_P = 0.
Proof.
  apply (getutxos_no_transaction_accounting (paged_provider mixed_page)
           Fixture.fromtimestamp Fixture.int_of_str 1 "addr" "" 100 [utxo_P] utxo_P).
  - vm_compute; reflexivity.
  - left; reflexivity.
Defined.

End UtxoExamples.

(** ** [getbalance] *)

Section Balance.

Variable request : string -> option variables -> result json.

Lemma compose_request_state (address : string) :
  Bitaps.compose_request request "address" "state" address None "blockchain"
  = Bitaps.self_request request (SyncDriver.state_url address) None.
Proof.
  unfold Bitaps.compose_request, SyncDriver.state_url.
  destruct address as [|c address]; reflexivity.
Qed.

Lemma getbalance_loop (addresslist : list string) :
  forall (balances : list Z) (acc : Z) (log : list request_rec),
    map (SyncDriver.reported_balance request) addresslist
    = map (fun b => Ok (JInt b)) balances ->
    for_eachM (fun balance address =>
      res <- Bitaps.compose_request request "address" "state" address None
               "blockchain" ;;
      data <- lift res.["data"] ;;
      b <- lift data.["balance"] ;;
      lift (PurePy.add balance b)) (JInt acc) addresslist log
    = (Ok (JInt (fold_left Z.add balances acc)),
       (log ++ map SyncDriver.state_request addresslist)%list).
Proof.
  induction addresslist as [|a l IH]; intros balances acc log H;
    destruct balances as [|b bs]; try discriminate.
  - cbn; rewrite app_nil_r; reflexivity.
  - cbn [map] in H; injection H as Ha Hl.
    cbn [for_eachM]; unfold bind at 1.
    rewrite compose_request_state.
    unfold bind, lift, Bitaps.self_request.
    unfold SyncDriver.reported_balance in Ha.
    destruct (request _ None) as [res|]; cbn in Ha; [|discriminate].
    destruct (res.["data"]) as [data|]; cbn in Ha; [|discriminate].
    rewrite Ha; cbn [PurePy.add PurePy.as_int].
    rewrite (IH bs (acc + b) _ Hl).
    cbn [map fold_left]; rewrite <- app_assoc; reflexivity.
Qed.

(** C10.  When the provider reports a balance for each address of the
    list, [getbalance] returns their sum, added up in list order from 0,
    after one state request per address; on the empty list it returns 0
    and requests nothing. *)
Theorem getbalance_sum (addresslist : list string) (balances : list Z) :
  map (SyncDriver.reported_balance request) addresslist
  = map (fun b => Ok (JInt b)) balances ->
  value (Bitaps.getbalance request addresslist)
  = Ok (JInt (fold_left Z.add balances 0))
  /\ trace (Bitaps.getbalance request addresslist)
     = map SyncDriver.state_request addresslist
  /\ run (Bitaps.getbalance request []) = (Ok (JInt 0), []).
Proof.
  intros H; unfold value, trace, run, Bitaps.getbalance.
  rewrite (getbalance_loop addresslist balances 0 [] H).
  repeat split.
Qed.

End Balance.

Module BalanceExamples.
Import Fixture.

Lemma getbalance_sum_witness :
  value (getbalance [("a1", 5); ("a2", 7); ("a3", 30)] ["a1"; "a2"; "a3"])
  = Ok (JInt 42)
  /\ trace (getbalance [("a1", 5); ("a2", 7); ("a3", 30)] ["a1"; "a2"; "a3"])
     = map SyncDriver.state_request ["a1"; "a2"; "a3"]
  /\ run (getbalance [("a1", 5); ("a2", 7); ("a3", 30)] []) = (Ok (JInt 0), []).
Proof.
  apply (getbalance_sum (state_provider [("a1", 5); ("a2", 7); ("a3", 30)])
           ["a1"; "a2"; "a3"] [5; 7; 30]).
  vm_compute; reflexivity.
Defined.

End BalanceExamples.

(** ** The CHECK constraints of the ledger schema *)

Module DbFacts.
Import Db.

Lemma in_true (v : string) (values : list string) :
  in_ (Some v) values = Some true <-> In v values.
Proof.
  unfold in_; split; intros H.
  - injection H as H; apply existsb_exists in H.
    destruct H as (x & Hx & E); apply String.eqb_eq in E; subst; assumption.
  - f_equal; apply existsb_exists; exists v; split; [assumption|].
    apply String.eqb_refl.
Qed.

Lemma in_outside (v : string) (values : list string) :
  ~ In v values -> in_ (Some v) values = Some false.
Proof.
  intros H; unfold in_; f_equal.
  destruct (existsb (String.eqb v) values) eqn:E; [|reflexivity].
  exfalso; apply H; apply in_true; unfold in_; rewrite E; reflexivity.
Qed.






End DbFacts.

Module DbExamples.
Import Db Fixture.


(** A transaction with status [confirmed] and a key with encoding
    [bech32] are accepted, and rows with these columns unset are stored
    with the defaults [new] and [base58]. *)
Example accepted_writes :
  (exists s, persist_transaction empty (a_transaction (Some "confirmed")) = Ok s /\
             map tx_status (transactions s) = [Some "confirmed"]) /\
  (exists s, persist_key empty (a_key (Some "bech32")) = Ok s /\
             map key_encoding (keys s) = [Some "bech32"]) /\
  (exists s, persist_transaction empty (a_transaction None) = Ok s /\
             map tx_status (transactions s) = [Some "new"]) /\
  (exists s, persist_key empty (a_key None) = Ok s /\
             map key_encoding (keys s) = [Some "base58"]).
Proof.
  repeat split; eexists; split; vm_compute; reflexivity.
Qed.

End DbExamples.

(** * Further properties of the client *)

(** ** More on the parser *)

Section ParserFields.

Variable self_network : Network.
Variable import_raw : json -> Network -> result Transaction.
Variable fromtimestamp : json -> result datetime.

Abbreviation _parse_transaction :=
  (Bitaps._parse_transaction self_network import_raw fromtimestamp).

(** The attributes of a parsed record that are copied from the item, and
    the decoded transaction they are set on. *)
Lemma parse_fields (tx : json) (t : Transaction) :
  _parse_transaction tx = Ok t ->
  exists raw t0,
    tx.["rawTx"] = Ok raw /\ import_raw raw self_network = Ok t0 /\
    rawtx t = raw /\
    tx.["txId"] = Ok (hash t) /\
    tx.["confirmations"] = Ok (confirmations t) /\
    tx.["fee"] = Ok (fee t) /\
    tx.["size"] = Ok (size t) /\
    tx.["outputsAmount"] = Ok (output_total t) /\
    network t = self_network /\
    Bitaps.for_update (Bitaps.set_output_spent tx) (outputs t0) = Ok (outputs t) /\
    (forall has_ts, PurePy.contains "timestamp" tx = Ok has_ts ->
       if has_ts
       then exists ts d, tx.["timestamp"] = Ok ts /\ fromtimestamp ts = Ok d /\
                         date t = Some d
       else forall has_bt, PurePy.contains "blockTime" tx = Ok has_bt ->
              if has_bt
              then exists bt d, tx.["blockTime"] = Ok bt /\ fromtimestamp bt = Ok d /\
                                date t = Some d
              else date t = date t0).
Proof.
  unfold Bitaps._parse_transaction; intros H.
  bind_inv H.
  match goal with
  | E : import_raw ?raw _ = Ok ?t0 |- _ => exists raw, t0
  end.
  injection H as <-; cbn.
  repeat (split; [assumption || reflexivity|]).
  intros has_ts Hts; injection Hts as <-.
  match goal with
  | E : (if ?b then _ else _) = Ok ?d |- context [if ?b then _ else _] =>
      destruct b
  end.
  - match goal with
    | E : rbind _ _ = Ok ?d |- _ => bind_inv E; injection E as <-
    end.
    do 2 eexists; repeat split; eassumption.
  - match goal with
    | E : rbind _ _ = Ok ?d |- _ => bind_inv E
    end.
    intros has_bt Hbt; injection Hbt as <-.
    match goal with
    | E : (if ?b then _ else _) = Ok ?d |- context [if ?b then _ else _] =>
        destruct b; [bind_inv E; injection E as <-|injection E as <-]
    end.
    + do 2 eexists; repeat split; eassumption.
    + reflexivity.
Qed.

End ParserFields.

Lemma getitem_str_dict (c : json) (k : string) (v : json) :
  c.[k] = Ok v -> exists d, c = JDict d /\ PurePy.lookup k d = Some v.
Proof.
  destruct c as [|b|z|s|l|d]; cbn; try discriminate.
  intros H; exists d; split; [reflexivity|].
    destruct (PurePy.lookup k d); [injection H as <-; reflexivity|discriminate].
Qed.

Lemma set_output_spent_spec (tx : json) (o0 o : Output) :
  Bitaps.set_output_spent tx o0 = Ok o ->
  exists vout e s,
    tx.["vOut"] = Ok vout /\ vout.[PurePy.str_of_int (output_n o0)] = Ok e /\
    e.["spent"] = Ok s /\
    output_n o = output_n o0 /\ spent o = spent o0 || PurePy.truthy s.
Proof.
  unfold Bitaps.set_output_spent; intros H; bind_inv H.
  do 3 eexists.
  split; [reflexivity|]. split; [eassumption|]. split; [eassumption|].
  destruct (PurePy.truthy _); injection H as <-; cbn; split; try reflexivity;
    destruct (spent o0); reflexivity.
Qed.

Section ParserMore.

Variable self_network : Network.
Variable import_raw : json -> Network -> result Transaction.
Variable fromtimestamp : json -> result datetime.

Abbreviation _parse_transaction :=
  (Bitaps._parse_transaction self_network import_raw fromtimestamp).

(** X1.  The record of a parsed item carries the item's [txId] as hash,
    its [confirmations], [fee], [size], [rawTx] and [outputsAmount], and
    the client's network, whatever the codec had decoded for them. *)
Theorem parse_copies_item (tx : json) (t : Transaction) :
  _parse_transaction tx = Ok t ->
  tx.["txId"] = Ok (hash t) /\
  tx.["confirmations"] = Ok (confirmations t) /\
  tx.["fee"] = Ok (fee t) /\
  tx.["size"] = Ok (size t) /\
  tx.["rawTx"] = Ok (rawtx t) /\
  tx.["outputsAmount"] = Ok (output_total t) /\
  network t = self_network.
Proof.
  intros H; destruct (parse_fields _ _ _ _ _ H)
    as (raw & t0 & Hraw & _ & Hr & Hh & Hc & Hf & Hs & Ho & Hn & _).
  subst raw; tauto.
Qed.

(** X2.  The date of the record is the item's [timestamp] when the item
    has one, even if it also has a [blockTime]; else its [blockTime] when
    it has one; else the date is left as decoded. *)
Theorem parse_date_precedence (tx : json) (t : Transaction) :
  _parse_transaction tx = Ok t ->
  (PurePy.contains "timestamp" tx = Ok true ->
   exists ts d, tx.["timestamp"] = Ok ts /\ fromtimestamp ts = Ok d /\
                date t = Some d) /\
  (PurePy.contains "timestamp" tx = Ok false ->
   PurePy.contains "blockTime" tx = Ok true ->
   exists bt d, tx.["blockTime"] = Ok bt /\ fromtimestamp bt = Ok d /\
                date t = Some d) /\
  (PurePy.contains "timestamp" tx = Ok false ->
   PurePy.contains "blockTime" tx = Ok false ->
   exists raw t0, tx.["rawTx"] = Ok raw /\ import_raw raw self_network = Ok t0 /\
                  date t = date t0).
Proof.
  intros H; destruct (parse_fields _ _ _ _ _ H)
    as (raw & t0 & Hraw & Ht0 & _ & _ & _ & _ & _ & _ & _ & _ & Hd).
  split; [|split].
  - intros Hts; exact (Hd true Hts).
  - intros Hts Hbt; exact (Hd false Hts true Hbt).
  - intros Hts Hbt; exists raw, t0; repeat split; auto.
    exact (Hd false Hts false Hbt).
Qed.

(** X3.  Parsing keeps the outputs and their numbers and only ever sets
    the spent flag: an output is spent in the record exactly when the
    codec had it spent or the item lists it with a true [spent]. *)
Theorem parse_outputs_spent (tx : json) (t : Transaction) :
  _parse_transaction tx = Ok t ->
  exists raw t0,
    tx.["rawTx"] = Ok raw /\ import_raw raw self_network = Ok t0 /\
    Forall2 (fun o0 o =>
               output_n o = output_n o0 /\
               exists vout e s,
                 tx.["vOut"] = Ok vout /\
                 vout.[PurePy.str_of_int (output_n o0)] = Ok e /\
                 e.["spent"] = Ok s /\
                 spent o = spent o0 || PurePy.truthy s)
            (outputs t0) (outputs t).
Proof.
  intros H; destruct (parse_fields _ _ _ _ _ H)
    as (raw & t0 & Hraw & Ht0 & _ & _ & _ & _ & _ & _ & _ & Ho & _).
  exists raw, t0; repeat split; try assumption.
  apply for_update_Forall2 in Ho.
  induction Ho as [|o0 o l0 l Hset _ IH]; constructor; [|assumption].
  destruct (set_output_spent_spec _ _ _ Hset) as (vout & e & s & Hv & He & Hs & Hn & Hsp).
  split; [assumption|]; exists vout, e, s; auto.
Qed.

(** X4.  A parsed record has status [confirmed] or [unconfirmed], never
    [new] or [incomplete]; both are in the set the [transactions] table
    allows for its status column. *)
Theorem parse_status_allowed (tx : json) (t : Transaction) :
  _parse_transaction tx = Ok t ->
  (status t = "confirmed" \/ status t = "unconfirmed") /\
  In (status t) Db.status_allowed /\
  Db.in_ (Some (status t)) Db.status_allowed = Some true.
Proof.
  intros H; destruct (parse_steps _ _ _ _ _ H)
    as (_ & _ & c & _ & _ & _ & _ & _ & _ & _ & Hst & _).
  rewrite Hst; destruct (PurePy.truthy c); cbn; intuition.
Qed.

(** X5.  Only a JSON object that has the keys [rawTx], [confirmations],
    [txId], [fee], [size] and [outputsAmount] is parsed; an item lacking
    one of them gives an exception, not a record. *)
Theorem parse_requires_keys (tx : json) (t : Transaction) :
  _parse_transaction tx = Ok t ->
  exists d, tx = JDict d /\
            forall k, In k ["rawTx"; "confirmations"; "txId"; "fee"; "size";
                            "outputsAmount"] ->
                      PurePy.lookup k d <> None.
Proof.
  intros H; destruct (parse_fields _ _ _ _ _ H)
    as (raw & t0 & Hraw & _ & _ & Hh & Hc & Hf & Hs & Ho & _).
  destruct (getitem_str_dict _ _ _ Hraw) as (d & -> & Hd).
  exists d; split; [reflexivity|].
  intros k Hk.
  assert (L : forall k' v, (JDict d).[k'] = Ok v -> PurePy.lookup k' d <> None).
  { intros k' v Hv; apply getitem_str_dict in Hv.
    destruct Hv as (d' & E & Hl); injection E as <-; congruence. }
  cbn [In] in Hk;
    repeat (destruct Hk as [<-|Hk]; [eapply L; eassumption|]); destruct Hk.
Qed.

End ParserMore.

(** ** More on the driver's loop *)

Section DriverMore.

Variable request : string -> option variables -> result json.
Context {A : Type}.
Variable transform : json -> result (list A).
Variable item_id : json -> result json.

Abbreviation step := (SyncDriver.step transform item_id).
Abbreviation fetch := (SyncDriver.fetch request transform item_id).
Abbreviation well_formed := (SyncDriver.well_formed transform item_id).

(** The requests of the loop and whether it raises depend neither on the
    cursor nor on what was collected. *)
Lemma fetch_cursor_independent (address : string) (fuel : nat) :
  forall (c1 c2 : string) (page : Z) (acc1 acc2 : list A) (log : list request_rec),
    snd (fetch fuel address c1 page acc1 log) = snd (fetch fuel address c2 page acc2 log) /\
    SyncDriver.is_ok (fst (fetch fuel address c1 page acc1 log))
    = SyncDriver.is_ok (fst (fetch fuel address c2 page acc2 log)).
Proof.
  induction fuel as [|fuel IH]; intros c1 c2 page acc1 acc2 log; [split; reflexivity|].
  cbn [SyncDriver.fetch]; unfold bind, lift.
  destruct (Bitaps.compose_request _ _ _ _ _ _ log) as [[res|] log'];
    [|split; reflexivity].
  destruct (res.["data"]) as [data|]; [|split; reflexivity].
  destruct (data.["list"]) as [l|]; [|split; reflexivity].
  destruct (PurePy.iter l) as [items|]; [|split; reflexivity].
  pose proof (for_each_step_ok transform item_id c1 items acc1) as O1.
  pose proof (for_each_step_ok transform item_id c2 items acc2) as O2.
  destruct (for_each (step c1) acc1 items) as [a1|];
    destruct (for_each (step c2) acc2 items) as [a2|];
    cbn in O1, O2; try congruence; try (split; reflexivity).
  destruct (data.["pages"]) as [pages|]; [|split; reflexivity].
  destruct (PurePy.int_gt (page + 1) pages) as [[|]|]; try (split; reflexivity).
  apply IH.
Qed.

(** A property of the collected sequence that every turn of the body
    keeps holds of what the loop returns. *)
Lemma fetch_invariant (P : list A -> Prop) (address cursor : string) (fuel : nat) :
  (forall item acc acc', P acc -> step cursor acc item = Ok acc' -> P acc') ->
  forall (page : Z) (acc r : list A) (log log' : list request_rec),
    fetch fuel address cursor page acc log = (Ok r, log') -> P acc -> P r.
Proof.
  intros Hstep; induction fuel as [|fuel IH]; intros page acc r log log' H Hacc;
    [discriminate|].
  cbn [SyncDriver.fetch] in H; unfold bind, lift in H.
  destruct (Bitaps.compose_request _ _ _ _ _ _ log) as [[res|] log1]; [|discriminate].
  destruct (res.["data"]) as [data|]; [|discriminate].
  destruct (data.["list"]) as [l|]; [|discriminate].
  destruct (PurePy.iter l) as [items|]; [|discriminate].
  destruct (for_each _ acc items) as [acc'|] eqn:Efor; [|discriminate].
  assert (Hacc' : P acc').
  { refine (for_each_invariant _ P items acc acc' _ Hacc Efor).
    intros a x a' _ Ha Hs; exact (Hstep x a a' Ha Hs). }
  destruct (data.["pages"]) as [pages|]; [|discriminate].
  destruct (PurePy.int_gt (page + 1) pages) as [[|]|]; [| |discriminate].
  - injection H as <- _; assumption.
  - exact (IH _ _ _ _ _ H Hacc').
Qed.

(** Against a served history the loop's result is that of the body run
    over the items in order, an exception included. *)
Lemma fetch_served_value (address cursor : string) (hist : list (list json * Z)) :
  forall (page : Z) (acc : list A) (log : list request_rec) (fuel : nat),
    SyncDriver.served request address page hist ->
    (List.length hist <= fuel)%nat ->
    fst (fetch fuel address cursor page acc log)
    = for_each (step cursor) acc (List.concat (map fst hist)).
Proof.
  induction hist as [|[items pages] rest IH]; intros page acc log fuel Hs Hf.
  - destruct Hs.
  - destruct fuel as [|fuel]; [simpl in Hf; lia|].
    destruct Hs as [Hp Hrest].
    rewrite (fetch_step _ _ _ _ _ _ _ _ _ _ _ Hp).
    cbn [map fst List.concat]; rewrite for_each_app.
    destruct (for_each (step cursor) acc items) as [acc'|e]; [|reflexivity].
    cbn [rbind]; destruct rest as [|pg rest].
    + apply Z.ltb_lt in Hrest; rewrite Hrest; reflexivity.
    + destruct Hrest as [Hle Hrest].
      assert (E : (pages <? page + 1) = false) by (apply Z.ltb_ge; lia).
      rewrite E; apply IH; [assumption|simpl in *; lia].
Qed.


End DriverMore.

Lemma for_each_raises {A B} (body : A -> B -> result A) (l : list B) (x : B) :
  In x l -> (forall acc, SyncDriver.is_ok (body acc x) = false) ->
  forall acc, SyncDriver.is_ok (for_each body acc l) = false.
Proof.
  induction l as [|y l IH]; intros Hin Hx acc; [destruct Hin|].
  cbn [for_each]; destruct Hin as [->|Hin].
  - specialize (Hx acc); destruct (body acc x); [discriminate|reflexivity].
  - destruct (body acc y); [apply IH; assumption|reflexivity].
Qed.

Lemma forallb_false_In {B} (f : B -> bool) (l : list B) (x : B) :
  In x l -> f x = false -> forallb f l = false.
Proof.
  intros Hin Hx; destruct (forallb f l) eqn:E; [|reflexivity].
  rewrite forallb_forall in E; rewrite (E x Hin) in Hx; discriminate.
Qed.

Section AfterLastMore.

Context {A : Type}.

Lemma newer_no_match (cursor : string) (acc : list A) (items : list (json * list A)) :
  forallb (fun kn => negb (PurePy.eq_str (fst kn) cursor)) items = true ->
  SyncDriver.newer cursor acc items = (acc ++ List.concat (map snd items))%list.
Proof.
  intros H; unfold SyncDriver.newer.
  apply (after_last_None (fun kn => PurePy.eq_str (fst kn) cursor)) in H.
  rewrite H; reflexivity.
Qed.

Lemma after_last_at_end {X} (p : X -> bool) (pre : list X) (x : X) :
  p x = true -> SyncDriver.after_last p (pre ++ [x]) = Some [].
Proof.
  intros Hx; induction pre as [|y pre IH]; cbn.
  - rewrite Hx; reflexivity.
  - rewrite IH; reflexivity.
Qed.

Lemma newer_match_at_end (cursor : string) (acc : list A)
      (pre : list (json * list A)) (k : json) (new : list A) :
  PurePy.eq_str k cursor = true ->
  SyncDriver.newer cursor acc (pre ++ [(k, new)]) = [].
Proof.
  intros H; unfold SyncDriver.newer.
  rewrite (after_last_at_end (fun kn => PurePy.eq_str (fst kn) cursor) pre (k, new) H).
  reflexivity.
Qed.

End AfterLastMore.

(** ** More on the fetch loops *)

Section FetchMore.

Variable request : string -> option variables -> result json.
Variable self_network : Network.
Variable import_raw : json -> Network -> result Transaction.
Variable fromtimestamp : json -> result datetime.
Variable int_of_str : string -> result Z.

Abbreviation gettransactions :=
  (Bitaps.gettransactions request self_network import_raw fromtimestamp).
Abbreviation getutxos := (Bitaps.getutxos request fromtimestamp int_of_str).
Abbreviation tx_records := (Instances.tx_records self_network import_raw fromtimestamp).
Abbreviation tx_utxos := (Instances.tx_utxos fromtimestamp int_of_str).

(** X6.  The requests that [gettransactions] and [getutxos] issue, and
    whether they end with an exception, depend neither on the cursor nor
    on the cap: a cursor or a small cap saves no request. *)
Theorem fetch_independent_of_cursor (fuel : nat) (address : string)
        (c1 c2 : string) (m1 m2 : Z) :
  trace (gettransactions fuel address c1 m1) = trace (gettransactions fuel address c2 m2) /\
  SyncDriver.is_ok (value (gettransactions fuel address c1 m1))
  = SyncDriver.is_ok (value (gettransactions fuel address c2 m2)) /\
  trace (getutxos fuel address c1 m1) = trace (getutxos fuel address c2 m2) /\
  SyncDriver.is_ok (value (getutxos fuel address c1 m1))
  = SyncDriver.is_ok (value (getutxos fuel address c2 m2)).
Proof.
  unfold trace, value, run.
  rewrite !gettransactions_sync_fetch, !getutxos_sync_fetch.
  unfold SyncDriver.sync_fetch, bind, ret.
  destruct (fetch_cursor_independent request tx_records Instances.txId
              address fuel c1 c2 0 [] [] []) as [T1 T2].
  destruct (fetch_cursor_independent request (tx_utxos address) Instances.hash_field
              address fuel c1 c2 1 [] [] []) as [U1 U2].
  destruct (SyncDriver.fetch request tx_records _ fuel address c1 0 [] [])
    as [[r1|] l1];
  destruct (SyncDriver.fetch request tx_records _ fuel address c2 0 [] [])
    as [[r2|] l2];
  destruct (SyncDriver.fetch request (tx_utxos address) _ fuel address c1 1 [] [])
    as [[r3|] l3];
  destruct (SyncDriver.fetch request (tx_utxos address) _ fuel address c2 1 [] [])
    as [[r4|] l4];
  cbn in *; try discriminate; repeat split; assumption || reflexivity.
Qed.

(** X7.  [gettransactions] never returns the cursor transaction itself:
    no returned record has the cursor as its hash. *)
Theorem gettransactions_never_returns_cursor
        (fuel : nat) (address after_txid : string) (max_txs : Z)
        (txs : list Transaction) (t : Transaction) :
  value (gettransactions fuel address after_txid max_txs) = Ok txs ->
  In t txs -> hash t <> JStr after_txid.
Proof.
  unfold value, run; rewrite gettransactions_sync_fetch.
  unfold SyncDriver.sync_fetch, bind, ret.
  destruct (SyncDriver.fetch _ _ _ _ _ _ _ _ _) as [[full|] log'] eqn:E;
    cbn; [|discriminate].
  intros H Hin; injection H as <-; apply slice_to_In in Hin.
  assert (F : Forall (fun t => hash t <> JStr after_txid) full).
  { refine (fetch_invariant request _ _ (Forall _) address after_txid fuel _
              0 [] full [] log' E (Forall_nil _)).
    intros tx acc acc' Hacc Hs; unfold SyncDriver.step, Instances.tx_records in Hs.
    destruct (Bitaps._parse_transaction _ _ _ tx) as [t'|] eqn:Ep; [|discriminate].
    cbn in Hs; unfold Instances.txId in Hs.
    destruct (parse_fields _ _ _ _ _ Ep) as (_ & _ & _ & _ & _ & Hh & _).
    rewrite Hh in Hs; cbn in Hs.
    destruct (PurePy.eq_str (hash t') after_txid) eqn:Eq;
      injection Hs as <-; [constructor|].
    apply Forall_app; split; [assumption|].
    constructor; [|constructor].
    intros C; rewrite C in Eq; cbn in Eq; rewrite String.eqb_refl in Eq.
    discriminate. }
  rewrite Forall_forall in F; exact (F t Hin).
Qed.

(** X8.  Against a served history of well-formed items: when no item has
    the cursor as [txId], as with the empty cursor of a first sync,
    [gettransactions] returns the records of all items in order, cut to
    the cap; when the last item has it, the call returns nothing. *)
Theorem gettransactions_cursor_edges (address after_txid : string) (max_txs : Z)
        (hist : list (list json * Z)) (fuel : nat) :
  SyncDriver.served request address 0 hist ->
  (List.length hist <= fuel)%nat ->
  forallb (SyncDriver.well_formed tx_records Instances.txId)
          (List.concat (map fst hist)) = true ->
  (forallb (fun tx => negb (PurePy.eq_str (SyncDriver.get (Instances.txId tx) JNull)
                                          after_txid))
           (List.concat (map fst hist)) = true ->
   value (gettransactions fuel address after_txid max_txs)
   = Ok (PurePy.slice_to
           (List.concat (map (fun tx => SyncDriver.get (tx_records tx) [])
                             (List.concat (map fst hist))))
           max_txs)) /\
  (forall pre last,
     List.concat (map fst hist) = (pre ++ [last])%list ->
     Instances.txId last = Ok (JStr after_txid) ->
     value (gettransactions fuel address after_txid max_txs) = Ok []).
Proof.
  intros Hs Hf Hw; unfold value.
  rewrite (gettransactions_served request self_network import_raw fromtimestamp
             address after_txid max_txs hist fuel Hs Hf Hw); cbn [fst].
  split.
  - intros Hn; rewrite newer_no_match.
    + cbn [app]; rewrite !map_map; reflexivity.
    + rewrite forallb_forall in *; intros kn Hkn.
      apply in_map_iff in Hkn; destruct Hkn as (tx & <- & Htx).
      exact (Hn tx Htx).
  - intros pre last Hl Hid; rewrite Hl, map_app; cbn [map].
    unfold SyncDriver.keyed at 2; rewrite Hid; cbn [SyncDriver.get].
    rewrite newer_match_at_end.
    + unfold PurePy.slice_to; destruct (0 <=? max_txs); rewrite firstn_nil;
        reflexivity.
    + cbn; apply String.eqb_refl.
Qed.

End FetchMore.


Section DriverFailures.

Variable request : string -> option variables -> result json.
Context {A : Type}.
Variable transform : json -> result (list A).
Variable item_id : json -> result json.

Abbreviation fetch := (SyncDriver.fetch request transform item_id).
Abbreviation well_formed := (SyncDriver.well_formed transform item_id).




(** One item that is not well-formed makes the run over a served history
    raise. *)
Lemma sync_fetch_all_or_nothing (first_page : Z) (address cursor : string)
      (max_results : Z) (hist : list (list json * Z)) (fuel : nat)
      (log : list request_rec) (item : json) :
  SyncDriver.served request address first_page hist ->
  (List.length hist <= fuel)%nat ->
  In item (List.concat (map fst hist)) ->
  well_formed item = false ->
  SyncDriver.is_ok
    (fst (SyncDriver.sync_fetch request transform item_id first_page
            fuel address cursor max_results log)) = false.
Proof.
  intros Hs Hf Hin Hw.
  rewrite sync_fetch_slice, (fetch_served_value _ _ _ _ _ hist _ _ _ _ Hs Hf).
  pose proof (for_each_step_ok transform item_id cursor
                (List.concat (map fst hist)) []) as O.
  rewrite (forallb_false_In _ _ _ Hin Hw) in O.
  destruct (for_each _ _ _); [discriminate|reflexivity].
Qed.

End DriverFailures.

Section FetchFailures.

Variable request : string -> option variables -> result json.
Variable self_network : Network.
Variable import_raw : json -> Network -> result Transaction.
Variable fromtimestamp : json -> result datetime.
Variable int_of_str : string -> result Z.

Abbreviation gettransactions :=
  (Bitaps.gettransactions request self_network import_raw fromtimestamp).
Abbreviation getutxos := (Bitaps.getutxos request fromtimestamp int_of_str).
Abbreviation tx_records := (Instances.tx_records self_network import_raw fromtimestamp).
Abbreviation tx_utxos := (Instances.tx_utxos fromtimestamp int_of_str).



(** X11.  One item that the parser refuses, on any page of the history,
    makes [gettransactions] end with an exception: the records of the
    other items are not returned. *)
Theorem gettransactions_all_or_nothing (address after_txid : string) (max_txs : Z)
        (hist : list (list json * Z)) (fuel : nat) (item : json) :
  SyncDriver.served request address 0 hist ->
  (List.length hist <= fuel)%nat ->
  In item (List.concat (map fst hist)) ->
  SyncDriver.is_ok (Bitaps._parse_transaction self_network import_raw fromtimestamp item)
  = false ->
  SyncDriver.is_ok (value (gettransactions fuel address after_txid max_txs)) = false.
Proof.
  intros Hs Hf Hin Hp; unfold value, run.
  rewrite gettransactions_sync_fetch.
  apply (sync_fetch_all_or_nothing request _ _ 0 address after_txid max_txs
           hist fuel [] item Hs Hf Hin).
  unfold SyncDriver.well_formed, Instances.tx_records.
  destruct (Bitaps._parse_transaction _ _ _ item); [discriminate|reflexivity].
Qed.

Lemma utxo_dict_inv (tx outp utxo : json) (u : utxo_rec) :
  Bitaps.utxo_dict fromtimestamp int_of_str tx outp utxo = Ok u ->
  tx.["txId"] = Ok (u_tx_hash u) /\
  tx.["confirmations"] = Ok (u_confirmations u) /\
  tx.["blockHeight"] = Ok (u_block_height u) /\
  Bitaps.int int_of_str outp = Ok (u_output_n u) /\
  utxo.["value"] = Ok (u_value u) /\
  utxo.["scriptPubKey"] = Ok (u_script u) /\
  exists ts, tx.["timestamp"] = Ok ts /\ fromtimestamp ts = Ok (u_date u).
Proof.
  unfold Bitaps.utxo_dict; intros H; bind_inv H.
  injection H as <-; cbn.
  repeat (split; [reflexivity|]).
  eexists; split; [reflexivity|eassumption].
Qed.

(** X12.  Every record [getutxos] returns reports facts of a listed item
    and of one of its outputs: the item's [txId], [confirmations] and
    [blockHeight], the output's key as number, its [value] and
    [scriptPubKey], and the item's [timestamp] as date.  So an item with
    no [blockHeight] or no [timestamp] gives no record. *)
Theorem getutxos_record_fields
        (fuel : nat) (address after_txid : string) (max_txs : Z)
        (utxos : list utxo_rec) (u : utxo_rec) :
  value (getutxos fuel address after_txid max_txs) = Ok utxos ->
  In u utxos ->
  exists tx outp vout utxo,
    SyncDriver.listed request address tx /\
    tx.["vOut"] = Ok vout /\ PurePy.getitem vout outp = Ok utxo /\
    tx.["txId"] = Ok (u_tx_hash u) /\
    tx.["confirmations"] = Ok (u_confirmations u) /\
    tx.["blockHeight"] = Ok (u_block_height u) /\
    Bitaps.int int_of_str outp = Ok (u_output_n u) /\
    utxo.["value"] = Ok (u_value u) /\
    utxo.["scriptPubKey"] = Ok (u_script u) /\
    exists ts, tx.["timestamp"] = Ok ts /\ fromtimestamp ts = Ok (u_date u).
Proof.
  intros H Hu.
  pose proof (getutxos_records _ _ _ _ _ _ _ _ H) as F.
  rewrite Forall_forall in F; specialize (F u Hu).
  destruct F as (tx & outp & vout & utxo & Hl & Hv & Hg & _ & _ & _ & Hd).
  exists tx, outp, vout, utxo.
  split; [assumption|]. split; [assumption|]. split; [assumption|].
  exact (utxo_dict_inv _ _ _ _ Hd).
Qed.

Lemma utxo_dict_no_height (tx outp utxo : json) (e : exn) :
  tx.["blockHeight"] = Raise e ->
  SyncDriver.is_ok (Bitaps.utxo_dict fromtimestamp int_of_str tx outp utxo) = false.
Proof.
  intros H; unfold Bitaps.utxo_dict.
  destruct (utxo.["address"]); cbn; [|reflexivity].
  destruct (tx.["txId"]); cbn; [|reflexivity].
  destruct (tx.["confirmations"]); cbn; [|reflexivity].
  destruct (Bitaps.int int_of_str outp); cbn; [|reflexivity].
  rewrite H; reflexivity.
Qed.

(** X13.  An item with no [blockHeight], as the provider lists a
    transaction that is not yet in a block, that pays an unspent output
    to the address makes [getutxos] end with an exception, although
    [_parse_transaction] accepts such an item. *)
Theorem getutxos_fails_on_unconfirmed_item
        (address after_txid : string) (max_txs : Z)
        (hist : list (list json * Z)) (fuel : nat)
        (tx vout outp utxo : json) (outps : list json) (e : exn) :
  SyncDriver.served request address 1 hist ->
  (List.length hist <= fuel)%nat ->
  In tx (List.concat (map fst hist)) ->
  tx.["vOut"] = Ok vout -> PurePy.iter vout = Ok outps -> In outp outps ->
  PurePy.getitem vout outp = Ok utxo ->
  Bitaps.skip_output address utxo = Ok false ->
  tx.["blockHeight"] = Raise e ->
  SyncDriver.is_ok (value (getutxos fuel address after_txid max_txs)) = false.
Proof.
  intros Hs Hf Hin Hv Hit Ho Hg Hsk Hb; unfold value, run.
  rewrite getutxos_sync_fetch.
  apply (sync_fetch_all_or_nothing request _ _ 1 address after_txid max_txs
           hist fuel [] tx Hs Hf Hin).
  unfold SyncDriver.well_formed, Instances.tx_utxos.
  rewrite Hv; cbn [rbind]; rewrite Hit; cbn [rbind].
  rewrite (for_each_raises _ outps outp Ho); [reflexivity|].
  intros acc; unfold Bitaps.getutxos_outp.
  rewrite Hv; cbn [rbind]; rewrite Hg; cbn [rbind]; rewrite Hsk; cbn [rbind].
  pose proof (utxo_dict_no_height tx outp utxo e Hb) as D.
  destruct (Bitaps.utxo_dict _ _ tx outp utxo); [discriminate|reflexivity].
Qed.

End FetchFailures.

(** ** The calls that issue one request *)

Lemma last_char_app_slash (u : string) : PurePy.last_char (u ++ "/") = "/".
Proof.
  induction u as [|c u IH]; [reflexivity|].
  cbn [append PurePy.last_char].
  destruct (u ++ "/") eqn:E; [|assumption].
  destruct u; discriminate.
Qed.

Lemma last_char_slash_iff (s : string) :
  PurePy.last_char s = "/" <-> exists u, s = u ++ "/".
Proof.
  split.
  - induction s as [|c s IH]; cbn [PurePy.last_char]; [discriminate|].
    destruct s as [|c' s].
    + intros H; injection H as ->; exists ""; reflexivity.
    + intros H; destruct (IH H) as (u & ->).
      exists (String c u); reflexivity.
  - intros (u & ->); apply last_char_app_slash.
Qed.

Section Calls.

Variable request : string -> option variables -> result json.
Variable self_network : Network.
Variable import_raw : json -> Network -> result Transaction.
Variable fromtimestamp : json -> result datetime.
Variable int_of_str : string -> result Z.

Abbreviation compose_request := (Bitaps.compose_request request).
Abbreviation gettransaction :=
  (Bitaps.gettransaction request self_network import_raw fromtimestamp).
Abbreviation getrawtransaction := (Bitaps.getrawtransaction request).
Abbreviation mempool := (Bitaps.mempool request self_network import_raw fromtimestamp).

(** X14.  [compose_request] issues exactly one request and hands back
    what the transport answers, an exception included.  The path
    requested is [type/category], followed by [/command] when the command
    is not empty; this is the whole path when [data] is empty, and a
    non-empty [data] is appended to it directly when it already ends with
    a slash and after one added slash when it does not. *)
Theorem compose_request_path (category command data : string)
        (vars : option variables) (type : string) (log : list request_rec) :
  exists path,
    compose_request category command data vars type log
    = (request path vars, (log ++ [mkRequest path vars])%list) /\
    (command = "" -> data = "" -> path = type ++ "/" ++ category) /\
    (command <> "" -> data = "" ->
     path = (type ++ "/" ++ category) ++ "/" ++ command) /\
    (forall base,
       base = (if (command =? "")%string then type ++ "/" ++ category
               else (type ++ "/" ++ category) ++ "/" ++ command) ->
       data <> "" ->
       ((exists u, base = u ++ "/") -> path = base ++ data) /\
       (~ (exists u, base = u ++ "/") -> path = (base ++ "/") ++ data)).
Proof.
  unfold Bitaps.compose_request, Bitaps.self_request.
  cbn [PurePy.truthy].
  destruct (command =? "")%string eqn:Ec; cbn [negb];
    destruct data as [|d data]; cbn [String.eqb negb].
  - apply String.eqb_eq in Ec.
    eexists; split; [reflexivity|]; repeat split; congruence.
  - apply String.eqb_eq in Ec.
    destruct (PurePy.last_char (type ++ "/" ++ category) =? "/")%string eqn:L;
      cbn [negb].
    + apply String.eqb_eq, last_char_slash_iff in L.
      eexists; split; [reflexivity|].
      split; [discriminate|]; split; [discriminate|].
      intros base -> _; split; [reflexivity|intros N; contradiction].
    + eexists; split; [reflexivity|].
      split; [discriminate|]; split; [discriminate|].
      intros base -> _; split; [|reflexivity].
      intros E; apply last_char_slash_iff in E; rewrite E in L; discriminate.
  - apply String.eqb_neq in Ec.
    eexists; split; [reflexivity|]; repeat split; congruence.
  - apply String.eqb_neq in Ec.
    destruct (PurePy.last_char ((type ++ "/" ++ category) ++ "/" ++ command) =? "/")%string
      eqn:L; cbn [negb].
    + apply String.eqb_eq, last_char_slash_iff in L.
      eexists; split; [reflexivity|].
      split; [discriminate|]; split; [discriminate|].
      intros base -> _; split; [reflexivity|intros N; contradiction].
    + eexists; split; [reflexivity|].
      split; [discriminate|]; split; [discriminate|].
      intros base -> _; split; [|reflexivity].
      intros E; apply last_char_slash_iff in E; rewrite E in L; discriminate.
Qed.

Lemma compose_request_transaction (txid : string) :
  compose_request "transaction" txid "" None "blockchain"
  = Bitaps.self_request request (SyncDriver.transaction_url txid) None.
Proof.
  unfold Bitaps.compose_request, SyncDriver.transaction_url.
  destruct txid as [|c txid]; reflexivity.
Qed.

(** What [gettransaction] does with the provider's answer. *)
Lemma gettransaction_run (txid : string) (log : list request_rec) :
  gettransaction txid log
  = (item <~ SyncDriver.reported_transaction request txid ;;
     Bitaps._parse_transaction self_network import_raw fromtimestamp item,
     (log ++ [mkRequest (SyncDriver.transaction_url txid) None])%list).
Proof.
  unfold Bitaps.gettransaction, bind, lift, SyncDriver.reported_transaction.
  rewrite compose_request_transaction; unfold Bitaps.self_request.
  destruct (request _ None) as [res|]; cbn; [|reflexivity].
  destruct (res.["data"]); reflexivity.
Qed.

(** X15.  When [gettransaction] returns a record for an id,
    [getrawtransaction] returns for the same id the raw transaction of
    that record, after the same single request. *)
Theorem getrawtransaction_of_gettransaction (txid : string) (t : Transaction) :
  value (gettransaction txid) = Ok t ->
  value (getrawtransaction txid) = Ok (rawtx t) /\
  trace (getrawtransaction txid) = trace (gettransaction txid).
Proof.
  unfold value, trace, run; rewrite gettransaction_run; cbn [fst snd].
  unfold Bitaps.getrawtransaction, bind, lift, SyncDriver.reported_transaction.
  rewrite compose_request_transaction; unfold Bitaps.self_request.
  destruct (request _ None) as [res|]; cbn; [|discriminate].
  destruct (res.["data"]) as [data|]; cbn; [|discriminate].
  intros H.
  destruct (parse_fields _ _ _ _ _ H) as (raw & t0 & Hraw & _ & Hr & _).
  rewrite Hraw, Hr; split; reflexivity.
Qed.

End Calls.

Lemma list_comp_Forall2 {A B} (f : A -> result B) (xs : list A) (ys : list B) :
  Bitaps.list_comp f xs = Ok ys -> Forall2 (fun x y => f x = Ok y) xs ys.
Proof.
  revert ys; induction xs as [|x xs IH]; intros ys H; cbn in H.
  - injection H as <-; constructor.
  - bind_inv H; injection H as <-; constructor; auto.
Qed.

Section Mempool.

Variable request : string -> option variables -> result json.
Variable self_network : Network.
Variable import_raw : json -> Network -> result Transaction.
Variable fromtimestamp : json -> result datetime.

Abbreviation gettransaction :=
  (Bitaps.gettransaction request self_network import_raw fromtimestamp).
Abbreviation mempool := (Bitaps.mempool request self_network import_raw fromtimestamp).

(** X16.  For a non-empty id, [mempool] asks for the transaction as
    [gettransaction] does and answers with its hash exactly when the
    record's status is [unconfirmed], with the empty list when it is
    confirmed, and with [gettransaction]'s exception when that fails. *)
Theorem mempool_of_txid (txid : string) :
  txid <> "" ->
  value (mempool txid)
  = (t <~ value (gettransaction txid) ;;
     Ok (if (status t =? "unconfirmed")%string then [hash t] else []))
  /\ trace (mempool txid) = trace (gettransaction txid).
Proof.
  intros Hn; unfold value, trace, run, Bitaps.mempool.
  assert (T : PurePy.truthy (JStr txid) = true).
  { cbn; destruct txid; [congruence|reflexivity]. }
  rewrite T; unfold bind, ret.
  rewrite gettransaction_run; cbn [fst snd].
  destruct (rbind _ _) as [t|] eqn:E; cbn [rbind fst snd]; [|split; reflexivity].
  unfold rbind in E.
  destruct (SyncDriver.reported_transaction request txid) as [item|]; [|discriminate].
  destruct (parse_steps _ _ _ _ _ E)
    as (_ & _ & c & _ & _ & _ & _ & Hc & _ & _ & Hst & _ & Hconf & _).
  rewrite Hst, Hconf.
  destruct (PurePy.truthy c); cbn; split; reflexivity.
Qed.

(** X17.  For the empty id, [mempool] issues one request, for the path
    [mempool/transactions] with no variables, and returns the [hash] of
    every listed transaction, in the order listed. *)
Theorem mempool_all (ids : list json) :
  value (mempool "") = Ok ids ->
  trace (mempool "") = [mkRequest "mempool/transactions" None] /\
  exists res data l txs,
    request "mempool/transactions" None = Ok res /\
    res.["data"] = Ok data /\ data.["transactions"] = Ok l /\
    PurePy.iter l = Ok txs /\
    Forall2 (fun tx h => tx.["hash"] = Ok h) txs ids.
Proof.
  unfold value, trace, run, Bitaps.mempool; cbn [PurePy.truthy String.eqb negb].
  unfold bind, lift, Bitaps.compose_request, Bitaps.self_request; cbn.
  destruct (request "mempool/transactions" None) as [res|]; cbn; [|discriminate].
  destruct (res.["data"]) as [data|] eqn:Ed; cbn; [|discriminate].
  destruct (data.["transactions"]) as [l|] eqn:El; cbn; [|discriminate].
  destruct (PurePy.iter l) as [txs|] eqn:Et; cbn; [|discriminate].
  intros H; split; [reflexivity|].
  exists res, data, l, txs; repeat split; auto.
  apply list_comp_Forall2; assumption.
Qed.

End Mempool.

Section Down.

Variable request : string -> option variables -> result json.
Variable self_network : Network.
Variable import_raw : json -> Network -> result Transaction.
Variable fromtimestamp : json -> result datetime.
Variable int_of_str : string -> result Z.

(** X18.  When the transport fails on every request, each call of the
    client ends with the transport's exception after exactly one
    request: nothing is retried and nothing is returned. *)
Theorem provider_down (e : exn) (address : string) (addresslist : list string)
        (txid after_txid : string) (max_txs : Z) (fuel : nat) :
  (forall url vars, request url vars = Raise e) ->
  (exists r, run (Bitaps.getbalance request (address :: addresslist)) = (Raise e, [r])) /\
  (exists r, run (Bitaps.getutxos request fromtimestamp int_of_str
                    (S fuel) address after_txid max_txs) = (Raise e, [r])) /\
  (exists r, run (Bitaps.gettransactions request self_network import_raw fromtimestamp
                    (S fuel) address after_txid max_txs) = (Raise e, [r])) /\
  (exists r, run (Bitaps.gettransaction request self_network import_raw fromtimestamp
                    txid) = (Raise e, [r])) /\
  (exists r, run (Bitaps.getrawtransaction request txid) = (Raise e, [r])) /\
  (exists r, run (Bitaps.block_count request) = (Raise e, [r])) /\
  (exists r, run (Bitaps.mempool request self_network import_raw fromtimestamp txid)
             = (Raise e, [r])).
Proof.
  intros H.
  assert (C : forall category command data vars type log,
             Bitaps.compose_request request category command data vars type log
             = (Raise e, (log ++ [mkRequest
                                    (url_path (hd (mkRequest "" None)
                                       (snd (Bitaps.compose_request request category
                                               command data vars type []))))
                                    vars])%list)).
  { intros; unfold Bitaps.compose_request, Bitaps.self_request.
    rewrite H; reflexivity. }
  unfold run.
  repeat split.
  - cbn [Bitaps.getbalance for_eachM]; unfold bind; rewrite C; eexists; reflexivity.
  - unfold Bitaps.getutxos; cbn [Bitaps.getutxos_loop]; unfold bind; rewrite C.
    eexists; reflexivity.
  - unfold Bitaps.gettransactions; cbn [Bitaps.gettransactions_loop]; unfold bind.
    rewrite C; eexists; reflexivity.
  - unfold Bitaps.gettransaction, bind; rewrite C; eexists; reflexivity.
  - unfold Bitaps.getrawtransaction, bind; rewrite C; eexists; reflexivity.
  - unfold Bitaps.block_count, bind; rewrite C; eexists; reflexivity.
  - unfold Bitaps.mempool.
    destruct (PurePy.truthy (JStr txid)).
    + unfold Bitaps.gettransaction, bind; rewrite C; eexists; reflexivity.
    + unfold bind; rewrite C; eexists; reflexivity.
Qed.

End Down.

(** ** More on [getbalance] *)

Section BalanceLoop.

Variable request : string -> option variables -> result json.

(** A loop body that asks for the balance of an address and adds it. *)
Variable f : json -> string -> M json.
Hypothesis f_body :
  forall acc address log,
    f (JInt acc) address log
    = (b <~ SyncDriver.reported_balance request address ;; PurePy.add (JInt acc) b,
       (log ++ [SyncDriver.state_request address])%list).

Lemma balance_loop_fails (l1 : list string) :
  forall (balances : list Z) (a : string) (l2 : list string) (e : exn)
         (acc : Z) (log : list request_rec),
    map (SyncDriver.reported_balance request) l1
    = map (fun b => Ok (JInt b)) balances ->
    SyncDriver.reported_balance request a = Raise e ->
    for_eachM f (JInt acc) (l1 ++ a :: l2) log
    = (Raise e, (log ++ map SyncDriver.state_request (l1 ++ [a]))%list).
Proof.
  induction l1 as [|x l1 IH]; intros balances a l2 e acc log Hl Ha;
    destruct balances as [|b bs]; try discriminate.
  - cbn [app for_eachM]; unfold bind.
    rewrite f_body, Ha; reflexivity.
  - cbn [map] in Hl; injection Hl as Hx Hl.
    cbn [app for_eachM]; unfold bind.
    rewrite f_body, Hx; cbn [rbind PurePy.add PurePy.as_int].
    rewrite (IH bs a l2 e _ _ Hl Ha).
    cbn [map app]; rewrite <- app_assoc; reflexivity.
Qed.

End BalanceLoop.

Lemma fold_left_add_shift (bs : list Z) :
  forall a, fold_left Z.add bs a = a + fold_left Z.add bs 0.
Proof.
  induction bs as [|b bs IH]; intros a; cbn [fold_left]; [lia|].
  rewrite (IH (a + b)), (IH (0 + b)); lia.
Qed.

Section BalanceMore.

Variable request : string -> option variables -> result json.

Lemma getbalance_body (acc : Z) (address : string) (log : list request_rec) :
  (res <- Bitaps.compose_request request "address" "state" address None "blockchain" ;;
   data <- lift res.["data"] ;;
   b <- lift data.["balance"] ;;
   lift (PurePy.add (JInt acc) b)) log
  = (b <~ SyncDriver.reported_balance request address ;; PurePy.add (JInt acc) b,
     (log ++ [SyncDriver.state_request address])%list).
Proof.
  unfold bind at 1; rewrite compose_request_state.
  unfold bind, lift, Bitaps.self_request, SyncDriver.reported_balance,
    SyncDriver.state_request.
  destruct (request _ None) as [res|]; cbn; [|reflexivity].
  destruct (res.["data"]) as [data|]; cbn; [|reflexivity].
  destruct (data.["balance"]); reflexivity.
Qed.

(** X19.  [getbalance] ends with the exception of the first address for
    which the provider reports no balance: it has then issued the
    requests of the addresses up to that one and none for the later
    ones, and the balances already added are lost. *)
Theorem getbalance_stops_at_failure (l1 l2 : list string) (a : string)
        (balances : list Z) (e : exn) :
  map (SyncDriver.reported_balance request) l1
  = map (fun b => Ok (JInt b)) balances ->
  SyncDriver.reported_balance request a = Raise e ->
  run (Bitaps.getbalance request (l1 ++ a :: l2))
  = (Raise e, map SyncDriver.state_request (l1 ++ [a])).
Proof.
  intros Hl Ha; unfold run, Bitaps.getbalance.
  rewrite (balance_loop_fails request _ getbalance_body l1 balances a l2 e 0 [] Hl Ha).
  reflexivity.
Qed.

(** X20.  The balance of a list is the sum of the balances of its parts:
    when the provider reports an integer balance for every address of
    two lists, [getbalance] returns for each list and for their
    concatenation, the result for the concatenation is the sum of the two
    results, and its requests are those of the first list followed by
    those of the second. *)
Theorem getbalance_app (l1 l2 : list string) (balances1 balances2 : list Z) :
  map (SyncDriver.reported_balance request) l1
  = map (fun b => Ok (JInt b)) balances1 ->
  map (SyncDriver.reported_balance request) l2
  = map (fun b => Ok (JInt b)) balances2 ->
  exists s1 s2,
    value (Bitaps.getbalance request l1) = Ok (JInt s1) /\
    value (Bitaps.getbalance request l2) = Ok (JInt s2) /\
    value (Bitaps.getbalance request (l1 ++ l2)) = Ok (JInt (s1 + s2)) /\
    trace (Bitaps.getbalance request (l1 ++ l2))
    = (trace (Bitaps.getbalance request l1) ++ trace (Bitaps.getbalance request l2))%list.
Proof.
  intros H1 H2; unfold value, trace, run, Bitaps.getbalance.
  exists (fold_left Z.add balances1 0), (fold_left Z.add balances2 0).
  rewrite (getbalance_loop request l1 balances1 0 [] H1).
  rewrite (getbalance_loop request l2 balances2 0 [] H2).
  assert (H : map (SyncDriver.reported_balance request) (l1 ++ l2)
              = map (fun b => Ok (JInt b)) (balances1 ++ balances2))
    by (rewrite !map_app; congruence).
  rewrite (getbalance_loop request (l1 ++ l2) (balances1 ++ balances2) 0 [] H).
  cbn [fst snd app]; rewrite map_app, fold_left_app.
  rewrite (fold_left_add_shift balances2 (fold_left Z.add balances1 0)).
  repeat split.
Qed.

End BalanceMore.

(** ** More on the ledger schema *)

Module DbMore.
Import Db.

Lemma ForallOrdPairs_snoc {A} (R : A -> A -> Prop) (l : list A) (x : A) :
  ForallOrdPairs R l -> (forall y, In y l -> R y x) ->
  ForallOrdPairs R (l ++ [x]).
Proof.
  induction 1 as [|a l Ha Hl IH]; intros Hx; cbn.
  - constructor; constructor.
  - constructor.
    + apply Forall_app; split; [assumption|].
      constructor; [apply Hx; left; reflexivity|constructor].
    + apply IH; intros y Hy; apply Hx; right; assumption.
Qed.

(** An accepted row clashes with no stored row on a unique constraint of
    the table. *)
Lemma insert_unique {row} (id : row -> option Z) (args : list (constraint row))
      (table table' : list row) (r : row) (same : row -> row -> option bool) :
  insert id args table r = Ok table' ->
  In (UniqueConstraint same) args ->
  table' = (table ++ [r])%list /\
  forall r', In r' table -> is_true (same r' r) = false.
Proof.
  unfold insert; intros H Hin.
  destruct (primary_key_free id table r); cbn [andb] in H; [|discriminate].
  destruct (forallb _ _) eqn:F; [|discriminate].
  injection H as <-; split; [reflexivity|].
  rewrite forallb_forall in F; specialize (F _ Hin); cbn in F.
  intros r' Hr'; destruct (is_true (same r' r)) eqn:E; [|reflexivity].
  apply negb_true_iff in F.
  assert (X : existsb (fun r' => is_true (same r' r)) table = true)
    by (apply existsb_exists; exists r'; auto).
  congruence.
Qed.

(** The unique constraint of the [transactions] table on wallet and
    hash. *)
Lemma same_wallet_hash_listed :
  In (UniqueConstraint (fun a b =>
        sql_and (sql_eq Z.eqb (tx_wallet_id a) (tx_wallet_id b))
                (sql_eq String.eqb (tx_hash a) (tx_hash b))))
     DbTransaction_table_args.
Proof. left; reflexivity. Qed.

(** X21.  A transaction whose wallet and hash are those of a stored
    transaction is rejected, so in every store built by accepted writes
    no two transactions have the same wallet and the same hash; rows
    with no wallet or no hash do not count as equal. *)
Theorem transaction_hash_unique_per_wallet (s : Store) :
  (forall t t' w h,
     In t' (transactions s) ->
     tx_wallet_id t' = Some w -> tx_hash t' = Some h ->
     tx_wallet_id t = Some w -> tx_hash t = Some h ->
     persist_transaction s t = Raise IntegrityError) /\
  (reachable s ->
   ForallOrdPairs
     (fun a b => forall w h,
        tx_wallet_id a = Some w -> tx_hash a = Some h ->
        ~ (tx_wallet_id b = Some w /\ tx_hash b = Some h))
     (transactions s)).
Proof.
  split.
  - intros t t' w h Hin Hw' Hh' Hw Hh.
    unfold persist_transaction, insert.
    cbn [forallb DbTransaction_table_args satisfied DbTransaction_defaults
           tx_wallet_id tx_hash].
    assert (X : existsb
                  (fun r' =>
                     is_true (sql_and (sql_eq Z.eqb (tx_wallet_id r') (tx_wallet_id t))
                                      (sql_eq String.eqb (tx_hash r') (tx_hash t))))
                  (transactions s) = true).
    { apply existsb_exists; exists t'; split; [assumption|].
      rewrite Hw', Hh', Hw, Hh; cbn.
      rewrite Z.eqb_refl, String.eqb_refl; reflexivity. }
    rewrite X; cbn [negb andb]; rewrite andb_false_r; reflexivity.
  - induction 1 as [|s k s' Hs IH Hp|s t s' Hs IH Hp].
    + constructor.
    + unfold persist_key in Hp.
      destruct (insert _ _ _ _); [|discriminate].
      injection Hp as <-; exact IH.
    + unfold persist_transaction in Hp.
      destruct (insert _ _ _ _) as [table|] eqn:E; [|discriminate].
      injection Hp as <-; cbn [transactions].
      destruct (insert_unique _ _ _ _ _ _ E same_wallet_hash_listed) as [-> U].
      apply ForallOrdPairs_snoc; [assumption|].
      intros y Hy w h Hw Hh [Hw' Hh'].
      specialize (U y Hy); cbn [DbTransaction_defaults tx_wallet_id tx_hash] in *.
      rewrite Hw, Hh, Hw', Hh' in U; cbn in U.
      rewrite Z.eqb_refl, String.eqb_refl in U; discriminate.
Qed.

(** X22.  The witness type [p2sh-segwit] is in the set of the [wallets]
    table and not in the set of the [transactions] table: a wallet with
    it, a scheme of the set and no other column set is accepted as the
    first wallet, and a transaction with it is always rejected. *)
Theorem p2sh_segwit_wallet_not_transaction :
  (forall s t, tx_witness_type t = Some "p2sh-segwit" ->
               persist_transaction s t = Raise IntegrityError) /\
  (forall w scheme,
     DbWallets.wallet_witness_type w = Some "p2sh-segwit" ->
     DbWallets.wallet_scheme w = Some scheme -> In scheme ["single"; "bip32"] ->
     DbWallets.wallet_encoding w = None ->
     exists w', DbWallets.persist_wallet [] w = Ok [w'] /\
                DbWallets.wallet_witness_type w' = Some "p2sh-segwit").
Proof.
  split.
  - intros s t Hw; unfold persist_transaction, insert.
    cbn [forallb DbTransaction_table_args satisfied DbTransaction_defaults
           tx_status tx_witness_type].
    rewrite Hw; cbn [or_default].
    rewrite (DbFacts.in_outside "p2sh-segwit" ["legacy"; "segwit"])
      by (cbn; intuition discriminate).
    cbn; rewrite !andb_false_r; reflexivity.
  - intros w scheme Hw Hs Hin He.
    unfold DbWallets.persist_wallet, insert, primary_key_free.
    cbn [existsb negb andb forallb DbWallets.DbWallet_constraints
           DbWallets.DbWallet_table_args satisfied DbWallets.DbWallet_defaults
           DbWallets.wallet_scheme DbWallets.wallet_encoding
           DbWallets.wallet_witness_type app].
    rewrite Hw, Hs, He; cbn [or_default].
    destruct Hin as [<-|[<-|[]]]; cbn; eexists; (split; [reflexivity|]);
      cbn; rewrite Hw; reflexivity.
Qed.

End DbMore.

(** ** Opening a database *)

Section Init.

Variable BITCOINLIB_VERSION : string.

Abbreviation init := (DbInit.init BITCOINLIB_VERSION).

Lemma scalar_merge_same (k v : string) (cfg : list (string * string)) :
  DbInit.scalar k (DbInit.merge k v cfg) = Some v.
Proof.
  induction cfg as [|[k' v'] cfg IH]; cbn.
  - rewrite String.eqb_refl; reflexivity.
  - destruct (k' =? k)%string eqn:E; cbn; rewrite E; [reflexivity|exact IH].
Qed.

Lemma scalar_merge_other (k k' v : string) (cfg : list (string * string)) :
  k <> k' -> DbInit.scalar k (DbInit.merge k' v cfg) = DbInit.scalar k cfg.
Proof.
  intros Hk; induction cfg as [|[k0 v0] cfg IH]; cbn.
  - destruct (k' =? k)%string eqn:E; [|reflexivity].
    apply String.eqb_eq in E; congruence.
  - destruct (k0 =? k')%string eqn:E; cbn.
    + apply String.eqb_eq in E; subst k0.
      destruct (k' =? k)%string eqn:E'; [|reflexivity].
      apply String.eqb_eq in E'; congruence.
    + destruct (k0 =? k)%string; [reflexivity|exact IH].
Qed.

(** X23.  Opening a database records the library's version, the date
    and the URL in the [config] table before the stored version is
    compared with the library's: the comparison therefore always finds
    them equal, and the upgrade from 0.4.10 to 0.4.11, which adds the
    column [latest_txid] to the [keys] table, is never carried out,
    whatever version the database was left by. *)
Theorem init_never_upgrades (now url : string) (db : DbInit.database) :
  DbInit.added_columns (init now url db) = DbInit.added_columns db /\
  DbInit.scalar "version" (DbInit.config (init now url db)) = Some BITCOINLIB_VERSION /\
  DbInit.scalar "installation_date" (DbInit.config (init now url db)) = Some now /\
  DbInit.scalar "installation_url" (DbInit.config (init now url db)) = Some url.
Proof.
  unfold DbInit.init, DbInit.verify_and_update, DbInit._import_config_data.
  cbn [DbInit.config DbInit.added_columns].
  assert (V : DbInit.scalar "version"
                (DbInit.merge "installation_url" url
                   (DbInit.merge "installation_date" now
                      (DbInit.merge "version" BITCOINLIB_VERSION (DbInit.config db))))
              = Some BITCOINLIB_VERSION).
  { rewrite !scalar_merge_other by discriminate; apply scalar_merge_same. }
  rewrite V, String.eqb_refl; cbn [negb DbInit.config DbInit.added_columns].
  repeat split.
  - exact V.
  - rewrite scalar_merge_other by discriminate; apply scalar_merge_same.
  - apply scalar_merge_same.
Qed.

End Init.

Module InitExamples.
Import Fixture.

(** A database left by version 0.4.10 and opened by version 0.4.11 gets
    its version changed and no column added. *)
Example old_database_not_upgraded :
  DbInit.init "0.4.11" "2019-08-20" "sqlite:///db" old_database
  = {| DbInit.config := [("version", "0.4.11"); ("installation_date", "2019-08-20");
                         ("installation_url", "sqlite:///db")];
       DbInit.added_columns := [] |}.
Proof. reflexivity. Qed.

End InitExamples.

(** ** The further properties on the example providers *)

Module MoreExamples.
Import Fixture.

Lemma parse_copies_item_witness :
  (plain "C").["txId"] = Ok (hash parsed_plain) /\
  (plain "C").["confirmations"] = Ok (confirmations parsed_plain) /\
  (plain "C").["fee"] = Ok (fee parsed_plain) /\
  (plain "C").["size"] = Ok (size parsed_plain) /\
  (plain "C").["rawTx"] = Ok (rawtx parsed_plain) /\
  (plain "C").["outputsAmount"] = Ok (output_total parsed_plain) /\
  network parsed_plain = "bitcoin".
Proof.
  apply (parse_copies_item "bitcoin" Fixture.import_raw Fixture.fromtimestamp
           (plain "C") parsed_plain).
  reflexivity.
Defined.

Lemma parse_date_precedence_witness :
  exists ts d, (plain "C").["timestamp"] = Ok ts /\ Fixture.fromtimestamp ts = Ok d /\
               date parsed_plain = Some d.
Proof.
  apply (proj1 (parse_date_precedence "bitcoin" Fixture.import_raw Fixture.fromtimestamp
                  (plain "C") parsed_plain eq_refl)).
  reflexivity.
Defined.

Lemma parse_outputs_spent_witness :
  spent_item.["rawTx"] = Ok (JStr "tx") /\
  outputs parsed_spent = [mkOutput 0 true] /\
  exists raw t0,
    spent_item.["rawTx"] = Ok raw /\ Fixture.import_raw raw "bitcoin" = Ok t0 /\
    Forall2 (fun o0 o =>
               output_n o = output_n o0 /\
               exists vout e s,
                 spent_item.["vOut"] = Ok vout /\
                 vout.[PurePy.str_of_int (output_n o0)] = Ok e /\
                 e.["spent"] = Ok s /\
                 spent o = spent o0 || PurePy.truthy s)
            (outputs t0) (outputs parsed_spent).
Proof.
  split; [reflexivity|]; split; [reflexivity|].
  apply (parse_outputs_spent "bitcoin" Fixture.import_raw Fixture.fromtimestamp
           spent_item parsed_spent).
  reflexivity.
Defined.

Lemma parse_status_allowed_witness :
  (status parsed_unconfirmed = "confirmed" \/ status parsed_unconfirmed = "unconfirmed") /\
  In (status parsed_unconfirmed) Db.status_allowed /\
  Db.in_ (Some (status parsed_unconfirmed)) Db.status_allowed = Some true.
Proof.
  apply (parse_status_allowed "bitcoin" Fixture.import_raw Fixture.fromtimestamp
           unconfirmed_item parsed_unconfirmed).
  reflexivity.
Defined.

Lemma parse_requires_keys_witness :
  exists d, plain "C" = JDict d /\
            forall k, In k ["rawTx"; "confirmations"; "txId"; "fee"; "size";
                            "outputsAmount"] ->
                      PurePy.lookup k d <> None.
Proof.
  apply (parse_requires_keys "bitcoin" Fixture.import_raw Fixture.fromtimestamp
           (plain "C") parsed_plain).
  reflexivity.
Defined.

Lemma gettransactions_never_returns_cursor_witness :
  value (gettransactions two_pages 3 "addr" "B" 100) = Ok txs_after_B /\
  In parsed_plain txs_after_B /\
  hash parsed_plain <> JStr "B".
Proof.
  split; [vm_compute; reflexivity|]; split; [left; reflexivity|].
  apply (gettransactions_never_returns_cursor (paged_provider two_pages) "bitcoin"
           Fixture.import_raw Fixture.fromtimestamp 3 "addr" "B" 100
           txs_after_B parsed_plain).
  - vm_compute; reflexivity.
  - left; reflexivity.
Defined.

Lemma gettransactions_cursor_edges_witness :
  value (gettransactions two_pages 3 "addr" "" 100)
  = Ok (PurePy.slice_to
          (List.concat
             (map (fun tx =>
                     SyncDriver.get
                       (Instances.tx_records "bitcoin" Fixture.import_raw
                          Fixture.fromtimestamp tx) [])
                  (List.concat (map fst (served_from_0 two_pages)))))
          100)
  /\ value (gettransactions two_pages 3 "addr" "D" 100) = Ok [].
Proof.
  split.
  - apply (proj1 (gettransactions_cursor_edges (paged_provider two_pages) "bitcoin"
                    Fixture.import_raw Fixture.fromtimestamp "addr" "" 100
                    (served_from_0 two_pages) 3
                    FetchExamples.two_pages_served_from_0 (le_n 3) eq_refl)).
    vm_compute; reflexivity.
  - apply (proj2 (gettransactions_cursor_edges (paged_provider two_pages) "bitcoin"
                    Fixture.import_raw Fixture.fromtimestamp "addr" "D" 100
                    (served_from_0 two_pages) 3
                    FetchExamples.two_pages_served_from_0 (le_n 3) eq_refl)
             [plain "A"; plain "B"; plain "C"] (plain "D")); reflexivity.
Defined.



Lemma gettransactions_all_or_nothing_witness :
  SyncDriver.is_ok (value (gettransactions damaged_pages 3 "addr" "" 100)) = false.
Proof.
  apply (gettransactions_all_or_nothing (paged_provider damaged_pages) "bitcoin"
           Fixture.import_raw Fixture.fromtimestamp "addr" "" 100
           (served_from_0 damaged_pages) 3 (JDict [("txId", JStr "X")])).
  - cbn [served_from_0 damaged_pages map SyncDriver.served List.length].
    repeat split; try lia; vm_compute; reflexivity.
  - simpl; lia.
  - right; left; reflexivity.
  - reflexivity.
Defined.

Lemma getutxos_record_fields_witness :
  exists tx outp vout utxo,
    SyncDriver.listed (paged_provider mixed_page) "addr" tx /\
    tx.["vOut"] = Ok vout /\ PurePy.getitem vout outp = Ok utxo /\
    tx.["txId"] = Ok (u_tx_hash utxo_P) /\
    tx.["confirmations"] = Ok (u_confirmations utxo_P) /\
    tx.["blockHeight"] = Ok (u_block_height utxo_P) /\
    Bitaps.int Fixture.int_of_str outp = Ok (u_output_n utxo_P) /\
    utxo.["value"] = Ok (u_value utxo_P) /\
    utxo.["scriptPubKey"] = Ok (u_script utxo_P) /\
    exists ts, tx.["timestamp"] = Ok ts /\ Fixture.fromtimestamp ts = Ok (u_date utxo_P).
Proof.
  apply (getutxos_record_fields (paged_provider mixed_page)
           Fixture.fromtimestamp Fixture.int_of_str 1 "addr" "" 100 [utxo_P] utxo_P).
  - vm_compute; reflexivity.
  - left; reflexivity.
Defined.

Lemma getutxos_fails_on_unconfirmed_item_witness :
  Fixture._parse_transaction unconfirmed_item = Ok parsed_unconfirmed /\
  SyncDriver.is_ok (value (getutxos mempool_pages 1 "addr" "" 100)) = false.
Proof.
  split; [reflexivity|].
  eapply (getutxos_fails_on_unconfirmed_item (paged_provider mempool_pages)
            Fixture.fromtimestamp Fixture.int_of_str "addr" "" 100
            (served_from_1 mempool_pages) 1 unconfirmed_item _ (JStr "0") _
            [JStr "0"] KeyError).
  - cbn [served_from_1 mempool_pages map SyncDriver.served List.length].
    repeat split; try lia; vm_compute; reflexivity.
  - simpl; lia.
  - right; left; reflexivity.
  - reflexivity.
  - reflexivity.
  - left; reflexivity.
  - reflexivity.
  - reflexivity.
  - reflexivity.
Defined.

Lemma getrawtransaction_of_gettransaction_witness :
  value (Bitaps.getrawtransaction (transaction_provider [("C", plain "C")]) "C")
  = Ok (rawtx parsed_plain)
  /\ trace (Bitaps.getrawtransaction (transaction_provider [("C", plain "C")]) "C")
     = trace (Bitaps.gettransaction (transaction_provider [("C", plain "C")]) "bitcoin"
                Fixture.import_raw Fixture.fromtimestamp "C").
Proof.
  apply (getrawtransaction_of_gettransaction (transaction_provider [("C", plain "C")])
           "bitcoin" Fixture.import_raw Fixture.fromtimestamp "C" parsed_plain).
  vm_compute; reflexivity.
Defined.

Lemma mempool_of_txid_witness :
  value (Bitaps.mempool (transaction_provider [("U", unconfirmed_item)]) "bitcoin"
           Fixture.import_raw Fixture.fromtimestamp "U")
  = (t <~ value (Bitaps.gettransaction (transaction_provider [("U", unconfirmed_item)])
                   "bitcoin" Fixture.import_raw Fixture.fromtimestamp "U") ;;
     Ok (if (status t =? "unconfirmed")%string then [hash t] else []))
  /\ trace (Bitaps.mempool (transaction_provider [("U", unconfirmed_item)]) "bitcoin"
              Fixture.import_raw Fixture.fromtimestamp "U")
     = trace (Bitaps.gettransaction (transaction_provider [("U", unconfirmed_item)])
                "bitcoin" Fixture.import_raw Fixture.fromtimestamp "U").
Proof.
  apply (mempool_of_txid (transaction_provider [("U", unconfirmed_item)]) "bitcoin"
           Fixture.import_raw Fixture.fromtimestamp "U").
  discriminate.
Defined.

(** [mempool] answers with the id of a transaction that has no
    confirmation, and with nothing for a confirmed one. *)
Example mempool_of_two_transactions :
  value (Bitaps.mempool (transaction_provider [("U", unconfirmed_item); ("C", plain "C")])
           "bitcoin" Fixture.import_raw Fixture.fromtimestamp "U") = Ok [JStr "U"] /\
  value (Bitaps.mempool (transaction_provider [("U", unconfirmed_item); ("C", plain "C")])
           "bitcoin" Fixture.import_raw Fixture.fromtimestamp "C") = Ok [].
Proof. split; vm_compute; reflexivity. Qed.

Lemma mempool_all_witness :
  trace (Bitaps.mempool (mempool_provider [plain "A"; plain "B"]) "bitcoin"
           Fixture.import_raw Fixture.fromtimestamp "")
  = [mkRequest "mempool/transactions" None] /\
  exists res data l txs,
    mempool_provider [plain "A"; plain "B"] "mempool/transactions" None = Ok res /\
    res.["data"] = Ok data /\ data.["transactions"] = Ok l /\
    PurePy.iter l = Ok txs /\
    Forall2 (fun tx h => tx.["hash"] = Ok h) txs [JStr "A"; JStr "B"].
Proof.
  apply (mempool_all (mempool_provider [plain "A"; plain "B"]) "bitcoin"
           Fixture.import_raw Fixture.fromtimestamp [JStr "A"; JStr "B"]).
  vm_compute; reflexivity.
Defined.

Lemma provider_down_witness :
  (exists r, run (Bitaps.getbalance down_provider ["a1"; "a2"]) = (Raise ClientError, [r])) /\
  (exists r, run (Bitaps.getutxos down_provider Fixture.fromtimestamp Fixture.int_of_str
                    3 "a1" "" 100) = (Raise ClientError, [r])) /\
  (exists r, run (Bitaps.gettransactions down_provider "bitcoin" Fixture.import_raw
                    Fixture.fromtimestamp 3 "a1" "" 100) = (Raise ClientError, [r])) /\
  (exists r, run (Bitaps.gettransaction down_provider "bitcoin" Fixture.import_raw
                    Fixture.fromtimestamp "C") = (Raise ClientError, [r])) /\
  (exists r, run (Bitaps.getrawtransaction down_provider "C") = (Raise ClientError, [r])) /\
  (exists r, run (Bitaps.block_count down_provider) = (Raise ClientError, [r])) /\
  (exists r, run (Bitaps.mempool down_provider "bitcoin" Fixture.import_raw
                    Fixture.fromtimestamp "C") = (Raise ClientError, [r])).
Proof.
  apply (provider_down down_provider "bitcoin" Fixture.import_raw Fixture.fromtimestamp
           Fixture.int_of_str ClientError "a1" ["a2"] "C" "" 100 2).
  intros url vars; reflexivity.
Defined.

Lemma getbalance_stops_at_failure_witness :
  run (getbalance [("a1", 5); ("a2", 7)] (["a1"] ++ "zz" :: ["a2"]))
  = (Raise ClientError, map SyncDriver.state_request (["a1"] ++ ["zz"])).
Proof.
  apply (getbalance_stops_at_failure (state_provider [("a1", 5); ("a2", 7)])
           ["a1"] ["a2"] "zz" [5] ClientError); reflexivity.
Defined.

Lemma getbalance_app_witness :
  exists s1 s2,
    value (getbalance [("a1", 5); ("a2", 7); ("a3", 30)] ["a1"]) = Ok (JInt s1) /\
    value (getbalance [("a1", 5); ("a2", 7); ("a3", 30)] ["a2"; "a3"]) = Ok (JInt s2) /\
    value (getbalance [("a1", 5); ("a2", 7); ("a3", 30)] (["a1"] ++ ["a2"; "a3"]))
    = Ok (JInt (s1 + s2)) /\
    trace (getbalance [("a1", 5); ("a2", 7); ("a3", 30)] (["a1"] ++ ["a2"; "a3"]))
    = (trace (getbalance [("a1", 5); ("a2", 7); ("a3", 30)] ["a1"])
       ++ trace (getbalance [("a1", 5); ("a2", 7); ("a3", 30)] ["a2"; "a3"]))%list.
Proof.
  apply (getbalance_app (state_provider [("a1", 5); ("a2", 7); ("a3", 30)])
           ["a1"] ["a2"; "a3"] [5] [7; 30]); vm_compute; reflexivity.
Defined.

Lemma compose_request_path_witness :
  exists path,
    Bitaps.compose_request down_provider "address" "state" "abc" None "blockchain" []
    = (down_provider path None, [mkRequest path None]) /\
    path = "blockchain/address/state/abc".
Proof.
  destruct (compose_request_path down_provider "address" "state" "abc" None
              "blockchain" []) as (path & H & _ & _ & P).
  exists path; split; [exact H|].
  apply (proj2 (P "blockchain/address/state" eq_refl ltac:(discriminate))).
  intros (u & Hu); apply (f_equal PurePy.last_char) in Hu.
  rewrite last_char_app_slash in Hu; discriminate.
Defined.


End MoreExamples.
